(** * Auto-repair shop services: reference data and repair orders

    A shallow embedding of the two FastAPI services of the repository,
    [reference_data_service.py] and [repair_order_service.py], and the
    properties their specification states about them.

    Conventions of the embedding.
    - A table with an integer primary key is a finite map [gmap Z row].
    - A request handler is a function from the database as its session sees
      it to the database it leaves behind, paired with what the handler
      returns or the [HTTPException] it raises.
    - The primary key a table hands out on insert is chosen by the storage
      layer ([autoincrement]); all that is known of it is that it is not a
      key of the table already.
    - The store is SQLite (the default [DATABASE_URL] of both services):
      an integer reaches it only if it fits 64 signed bits.  A statement
      given an integer outside that range raises [OverflowError], which
      no handler catches.
    - The reference data service, as the repair order service reaches it
      with [requests.get], is a function from the address requested to a
      response or an exception: its answers do not change while one request
      is handled.
    - Python [int] is [Z], [str] is [string], [Optional[str]] is
      [option string]; [float] values are only stored and copied, so their
      type is a parameter; [datetime.now()] is an input of the handler that
      calls it. *)

From Stdlib Require Import ZArith QArith String List Lia.
From stdpp Require Import base option gmap strings list.

Local Open Scope Z_scope.

(** ** The web framework's view of a handler *)

Module Web.

(** [fastapi.HTTPException(status_code=..., detail=...)]. *)
Record HTTPException := { status_code : Z; detail : string }.

(** What a handler call ends in: a returned value, a raised
    [HTTPException], or an exception of another class, named, which the
    handler does not catch and the framework answers with status 500 and
    the plain text [Internal Server Error]. *)
Inductive Reply (A : Type) :=
| Return (a : A)
| Raise (e : HTTPException)
| ServerError (exception : string).
Arguments Return {A} a.
Arguments Raise {A} e.
Arguments ServerError {A} exception.

(** The dictionary [{"success": True, "message": ...}] of the delete
    handlers. *)
Record Ack := { success : bool; message : string }.

End Web.
Export Web.

(** ** Storage layer *)

(** SQLite's choice for an [INTEGER PRIMARY KEY] column (the default
    [DATABASE_URL] of both services is an SQLite file): one more than the
    largest key in the table. *)
Definition sqlite_rowid (ids : gset Z) : Z :=
  1 + foldr Z.max 0 (elements ids).

(** The integers an [INTEGER] column of SQLite holds, and the only ones
    its driver accepts as a parameter of a statement: 64 bits, signed. *)
Definition in_store_range (n : Z) : Prop := - 2 ^ 63 <= n < 2 ^ 63.

#[global] Instance in_store_range_dec (n : Z) : Decision (in_store_range n).
Proof. unfold in_store_range. apply _. Defined.

(** What [session.get(Model, id)] ends in: the row, [None], or an
    [OverflowError]. *)
Inductive Got (A : Type) :=
| Found (row : A)
| NotStored
| OutOfRange.
Arguments Found {A} row.
Arguments NotStored {A}.
Arguments OutOfRange {A}.

(** [session.get(Model, id)] on a table: the row stored under [id]; where
    there is none, [None] for an id the store can take as a parameter and
    [OverflowError] for one it cannot.  The code meets the range first,
    when the id is bound as a parameter; as no table of a store holds a row
    under an id outside the range, the order of the two tests makes no
    difference on a store (lemma [session_get_within_range]). *)
Definition session_get {A} (table : gmap Z A) (id : Z) : Got A :=
  match table !! id with
  | Some row => Found row
  | None => if decide (in_store_range id) then NotStored else OutOfRange
  end.

(** * Reference data service ([reference_data_service.py]) *)

Module ReferenceData.

(** [class ServiceModel(Base)], table [services]. *)
Module ServiceModel.
Record t {float : Type} :=
  { id : Z; name : string; price : float; duration_minutes : Z }.
Arguments t : clear implicits.
End ServiceModel.

(** [class EmployeeModel(Base)], table [employees]. *)
Module EmployeeModel.
Record t := { id : Z; full_name : string; position : string }.
End EmployeeModel.

(** [class ServiceCreate(BaseModel)]. *)
Module ServiceCreate.
Record t {float : Type} :=
  { name : string; price : float; duration_minutes : Z }.
Arguments t : clear implicits.
End ServiceCreate.

(** [class Service(ServiceCreate)]: the fields of [ServiceCreate] and
    [id]; [from_attributes=True] fills each field from the attribute of
    the same name of the ORM object. *)
Module Service.
Record t {float : Type} :=
  { name : string; price : float; duration_minutes : Z; id : Z }.
Arguments t : clear implicits.

Definition from_attributes {float} (obj : ServiceModel.t float) : t float :=
  {| name := ServiceModel.name obj;
     price := ServiceModel.price obj;
     duration_minutes := ServiceModel.duration_minutes obj;
     id := ServiceModel.id obj |}.
End Service.

(** [class EmployeeCreate(BaseModel)]. *)
Module EmployeeCreate.
Record t := { full_name : string; position : string }.
End EmployeeCreate.

(** [class Employee(EmployeeCreate)]. *)
Module Employee.
Record t := { full_name : string; position : string; id : Z }.

Definition from_attributes (obj : EmployeeModel.t) : t :=
  {| full_name := EmployeeModel.full_name obj;
     position := EmployeeModel.position obj;
     id := EmployeeModel.id obj |}.
End Employee.

(** The two tables the service owns. *)
Record Database {float : Type} :=
  { services : gmap Z (ServiceModel.t float);
    employees : gmap Z EmployeeModel.t }.
Arguments Database : clear implicits.

Section Handlers.
Context {float : Type}.
Variable autoincrement : gset Z -> Z.

(** [POST /services].  The commit inserts the row, unless the integer
    column [duration_minutes] is given a value the store cannot take: then
    it raises and nothing is stored. *)
Definition create_service (new_service : ServiceCreate.t float)
    (session : Database float) : Database float * Reply (Service.t float) :=
  let service :=
    {| ServiceModel.id := autoincrement (dom (services session));
       ServiceModel.name := ServiceCreate.name new_service;
       ServiceModel.price := ServiceCreate.price new_service;
       ServiceModel.duration_minutes :=
         ServiceCreate.duration_minutes new_service |} in
  if decide (in_store_range (ServiceCreate.duration_minutes new_service))
  then
    ({| services := <[ServiceModel.id service := service]> (services session);
        employees := employees session |},
     Return (Service.from_attributes service))
  else (session, ServerError "OverflowError").

(** [GET /services/{service_id}] *)
Definition get_service_by_id (service_id : Z) (session : Database float)
    : Reply (Service.t float) :=
  match session_get (services session) service_id with
  | Found service => Return (Service.from_attributes service)
  | NotStored =>
      Raise {| status_code := 404; detail := "Услуга не найдена" |}
  | OutOfRange => ServerError "OverflowError"
  end.

(** [POST /employees].  The row has no integer column but its key. *)
Definition create_employee (new_employee : EmployeeCreate.t)
    (session : Database float) : Database float * Reply Employee.t :=
  let employee :=
    {| EmployeeModel.id := autoincrement (dom (employees session));
       EmployeeModel.full_name := EmployeeCreate.full_name new_employee;
       EmployeeModel.position := EmployeeCreate.position new_employee |} in
  ({| services := services session;
      employees :=
        <[EmployeeModel.id employee := employee]> (employees session) |},
   Return (Employee.from_attributes employee)).

(** [GET /employees/{employee_id}] *)
Definition get_employee_by_id (employee_id : Z) (session : Database float)
    : Reply Employee.t :=
  match session_get (employees session) employee_id with
  | Found employee => Return (Employee.from_attributes employee)
  | NotStored =>
      Raise {| status_code := 404; detail := "Сотрудник не найден" |}
  | OutOfRange => ServerError "OverflowError"
  end.

(** [DELETE /services/{service_id}] *)
Definition delete_service (service_id : Z) (session : Database float)
    : Database float * Reply Ack :=
  match session_get (services session) service_id with
  | Found service =>
      ({| services := delete service_id (services session);
          employees := employees session |},
       Return {| success := true; message := "Услуга успешно удалена" |})
  | NotStored =>
      (session,
       Raise {| status_code := 404; detail := "Услуга не найдена" |})
  | OutOfRange => (session, ServerError "OverflowError")
  end.

(** [DELETE /employees/{employee_id}] *)
Definition delete_employee (employee_id : Z) (session : Database float)
    : Database float * Reply Ack :=
  match session_get (employees session) employee_id with
  | Found employee =>
      ({| services := services session;
          employees :=
            delete employee_id (employees session) |},
       Return {| success := true;
                 message := "Сотрудник успешно удален" |})
  | NotStored =>
      (session,
       Raise {| status_code := 404; detail := "Сотрудник не найден" |})
  | OutOfRange => (session, ServerError "OverflowError")
  end.

(** [GET /services]: every row of the table, in the order the database
    yields them. *)
Definition get_all_services (session : Database float)
    : Reply (list (Service.t float)) :=
  Return (Service.from_attributes <$> (snd <$> map_to_list (services session))).

(** [GET /employees] *)
Definition get_all_employees (session : Database float)
    : Reply (list Employee.t) :=
  Return
    (Employee.from_attributes <$> (snd <$> map_to_list (employees session))).

End Handlers.

End ReferenceData.

(** * Repair order service ([repair_order_service.py]) *)

Module RepairOrders.

(** ** The outbound HTTP client ([requests]) *)

(** The two addresses the service requests:
    [f"{REFERENCE_DATA_URL}/services/{service_id}"] and
    [f"{REFERENCE_DATA_URL}/employees/{employee_id}"]. *)
Inductive Url :=
| services_url (service_id : Z)
| employees_url (employee_id : Z).

(** [requests.Response]: what the handler reads of it. *)
Module Response.
Record t := { status_code : Z; text : string }.
End Response.

(** [requests.exceptions.RequestException]: the response it carries, if
    one was received, and its [str(e)]. *)
Module RequestException.
Record t := { response : option Response.t; str : string }.
End RequestException.

(** [requests.get(url)] returns a response or raises. *)
Inductive Fetched :=
| Responded (r : Response.t)
| Failed (e : RequestException.t).

(** [response.raise_for_status()]: an [HTTPError] carrying the response
    for a 4xx or 5xx status, nothing otherwise.  The handler never reads
    the [str(e)] of an exception that carries a response, so the text of
    the [HTTPError] is not spelled out. *)
Definition raise_for_status (r : Response.t) : option RequestException.t :=
  if decide (400 <= Response.status_code r < 600)
  then Some {| RequestException.response := Some r;
               RequestException.str := "HTTPError" |}
  else None.

(** ** ORM models *)

(** [class RepairOrderServiceModel(Base)], table [repair_order_services]. *)
Module RepairOrderServiceModel.
Record t := { id : Z; service_id : Z; repair_order_id : Z }.
End RepairOrderServiceModel.

(** [class RepairOrderModel(Base)], table [repair_orders]: [columns] is a
    row of the table, [t] an instance whose [services] relationship has
    been loaded. *)
Module RepairOrderModel.
Record columns :=
  { id : Z;
    client_name : string;
    client_phone : string;
    car_make : string;
    car_model : string;
    car_plate : string;
    employee_id : Z;
    status : string;
    created_at : Z;
    description : option string }.

Record t :=
  { row : columns;
    services : list RepairOrderServiceModel.t }.
End RepairOrderModel.

(** The two tables the service owns. *)
Record Database :=
  { repair_orders : gmap Z RepairOrderModel.columns;
    repair_order_services : gmap Z RepairOrderServiceModel.t }.

(** The [services] relationship of the order [repair_order_id], resolved
    through the foreign key (what [selectinload] and
    [refresh(..., attribute_names=["services"])] fetch). *)
Definition load_services (session : Database) (repair_order_id : Z)
    : list RepairOrderServiceModel.t :=
  filter
    (λ entry, RepairOrderServiceModel.repair_order_id entry = repair_order_id)
    (snd <$> map_to_list (repair_order_services session)).

(** [session.get(RepairOrderModel, repair_order_id,
                 options=[selectinload(RepairOrderModel.services)])]. *)
Definition get_with_services (session : Database) (repair_order_id : Z)
    : Got RepairOrderModel.t :=
  match session_get (repair_orders session) repair_order_id with
  | Found row =>
      Found {| RepairOrderModel.row := row;
               RepairOrderModel.services :=
                 load_services session repair_order_id |}
  | NotStored => NotStored
  | OutOfRange => OutOfRange
  end.

(** ** Pydantic schemas *)

(** [class RepairOrderCreate(BaseModel)]. *)
Module RepairOrderCreate.
Record t :=
  { client_name : string;
    client_phone : string;
    car_make : string;
    car_model : string;
    car_plate : string;
    service_ids : list Z;
    employee_id : Z;
    description : option string }.
End RepairOrderCreate.

(** A JSON value of a request body (scalars; numbers are integers). *)
Inductive Json :=
| JNull
| JString (s : string)
| JNumber (n : Z)
| JBool (b : bool).

(** [class RepairOrderUpdate(BaseModel)]: both fields are
    [Optional[str] = None]. *)
Module RepairOrderUpdate.
Record t := { status : option string; description : option string }.

(** An [Optional[str] = None] field of a JSON body: the default when the
    key is missing, [None] for [null], the string for a string, and a
    validation error (no value) for anything else. *)
Definition optional_str (field : option Json) : option (option string) :=
  match field with
  | None => Some None
  | Some JNull => Some None
  | Some (JString s) => Some (Some s)
  | Some _ => None
  end.

(** Validation of the request body; keys other than the two fields are
    ignored. *)
Definition model_validate (body : gmap string Json) : option t :=
  status ← optional_str (body !! "status");
  description ← optional_str (body !! "description");
  Some {| status := status; description := description |}.
End RepairOrderUpdate.

(** Python values, as far as the response schema meets them. *)
#[local] Unset Elimination Schemes.
Inductive PyObject :=
| PyNone
| PyInt (n : Z)
| PyStr (s : string)
| PyDatetime (t : Z)
| PyList (items : list PyObject)
| PyServiceEntry (entry : RepairOrderServiceModel.t).
#[local] Set Elimination Schemes.

(** [isinstance(v, list)]. *)
Definition isinstance_list (v : PyObject) : bool :=
  match v with PyList _ => true | _ => false end.

(** Whether a value is an association row. *)
Definition is_service_entry (v : PyObject) : bool :=
  match v with PyServiceEntry _ => true | _ => false end.

(** Evaluation of an expression that may raise [AttributeError]. *)
Inductive Attempt (A : Type) :=
| Value (a : A)
| AttributeError.
Arguments Value {A} a.
Arguments AttributeError {A}.

(** [service_model.service_id]: of the values above only an association
    row has the attribute. *)
Definition get_service_id (service_model : PyObject) : Attempt PyObject :=
  match service_model with
  | PyServiceEntry entry =>
      Value (PyInt (RepairOrderServiceModel.service_id entry))
  | _ => AttributeError
  end.

(** [[service_model.service_id for service_model in items]]. *)
Fixpoint service_id_comprehension (items : list PyObject)
    : Attempt (list PyObject) :=
  match items with
  | [] => Value []
  | service_model :: rest =>
      match get_service_id service_model with
      | AttributeError => AttributeError
      | Value service_id =>
          match service_id_comprehension rest with
          | AttributeError => AttributeError
          | Value ids => Value (service_id :: ids)
          end
      end
  end.

(** The attributes of a loaded [RepairOrderModel] instance, by name: its
    mapped columns and the [services] relationship. *)
Definition attributes (obj : RepairOrderModel.t) : gmap string PyObject :=
  let row := RepairOrderModel.row obj in
  list_to_map
    [ ("id", PyInt (RepairOrderModel.id row));
      ("client_name", PyStr (RepairOrderModel.client_name row));
      ("client_phone", PyStr (RepairOrderModel.client_phone row));
      ("car_make", PyStr (RepairOrderModel.car_make row));
      ("car_model", PyStr (RepairOrderModel.car_model row));
      ("car_plate", PyStr (RepairOrderModel.car_plate row));
      ("employee_id", PyInt (RepairOrderModel.employee_id row));
      ("status", PyStr (RepairOrderModel.status row));
      ("created_at", PyDatetime (RepairOrderModel.created_at row));
      ("description",
        from_option PyStr PyNone (RepairOrderModel.description row));
      ("services", PyList (PyServiceEntry <$> RepairOrderModel.services obj)) ].

(** [class RepairOrder(BaseModel)], the response schema. *)
Module RepairOrder.
Record t :=
  { id : Z;
    client_name : string;
    client_phone : string;
    car_make : string;
    car_model : string;
    car_plate : string;
    employee_id : Z;
    status : string;
    created_at : Z;
    description : option string;
    service_ids : list Z }.

(** The JSON object sent to the client: the fields as they are, and
    [service_ids] as its serializer returns it. *)
Record dumped :=
  { fields : t;
    dumped_service_ids : list PyObject }.

Definition as_int (v : PyObject) : option Z :=
  match v with PyInt n => Some n | _ => None end.
Definition as_str (v : PyObject) : option string :=
  match v with PyStr s => Some s | _ => None end.
Definition as_datetime (v : PyObject) : option Z :=
  match v with PyDatetime t => Some t | _ => None end.
Definition as_optional_str (v : PyObject) : option (option string) :=
  match v with
  | PyNone => Some None
  | PyStr s => Some (Some s)
  | _ => None
  end.
Definition as_list_int (v : PyObject) : option (list Z) :=
  match v with PyList items => mapM as_int items | _ => None end.

(** A field with a default: the default when the object has no
    attribute of the field's name. *)
Definition with_default {A} (default : A) (validate : PyObject -> option A)
    (attribute : option PyObject) : option A :=
  match attribute with
  | None => Some default
  | Some v => validate v
  end.

(** Validation of an ORM object against the schema
    ([from_attributes=True]): every field is read from the attribute of
    the field's own name; a missing attribute is an error for a field
    without default ([None] here) and the default for the two fields
    that have one, [description: Optional[str] = None] and
    [service_ids: List[int] = []]. *)
Definition model_validate (obj : gmap string PyObject) : option t :=
  id ← obj !! "id" ≫= as_int;
  client_name ← obj !! "client_name" ≫= as_str;
  client_phone ← obj !! "client_phone" ≫= as_str;
  car_make ← obj !! "car_make" ≫= as_str;
  car_model ← obj !! "car_model" ≫= as_str;
  car_plate ← obj !! "car_plate" ≫= as_str;
  employee_id ← obj !! "employee_id" ≫= as_int;
  status ← obj !! "status" ≫= as_str;
  created_at ← obj !! "created_at" ≫= as_datetime;
  description ← with_default None as_optional_str (obj !! "description");
  service_ids ← with_default [] as_list_int (obj !! "service_ids");
  Some {| id := id; client_name := client_name;
          client_phone := client_phone; car_make := car_make;
          car_model := car_model; car_plate := car_plate;
          employee_id := employee_id; status := status;
          created_at := created_at; description := description;
          service_ids := service_ids |}.

(** [@field_serializer('service_ids') def serialize_service_ids(self,
    services_relationship, _info)]. *)
Definition serialize_service_ids (services_relationship : PyObject)
    : Attempt (list PyObject) :=
  match services_relationship with
  | PyList items => service_id_comprehension items
  | _ => Value []
  end.

(** Serialization of a validated schema instance: the serializer is
    applied to the value of the field [service_ids]. *)
Definition model_dump (m : t) : Attempt dumped :=
  match serialize_service_ids (PyList (PyInt <$> service_ids m)) with
  | AttributeError => AttributeError
  | Value ids => Value {| fields := m; dumped_service_ids := ids |}
  end.
End RepairOrder.

(** What the web framework does with the object a handler annotated
    [-> RepairOrder] returns: validate it against the schema, serialize
    the result; a failure of either step is a server error. *)
Definition response_model (obj : RepairOrderModel.t)
    : Reply RepairOrder.dumped :=
  match RepairOrder.model_validate (attributes obj) with
  | None => ServerError "ResponseValidationError"
  | Some m =>
      match RepairOrder.model_dump m with
      | AttributeError => ServerError "PydanticSerializationError"
      | Value body => Return body
      end
  end.

(** ** Request handlers *)

(** The addresses the [try] block of [create_repair_order] requests, in
    order, when no request fails: one per service id, then the
    employee's. *)
Definition lookups (repair_order_data : RepairOrderCreate.t) : list Url :=
  (services_url <$> RepairOrderCreate.service_ids repair_order_data)
  ++ [employees_url (RepairOrderCreate.employee_id repair_order_data)].

Section Handlers.
Variable requests_get : Url -> Fetched.
Variable autoincrement : gset Z -> Z.

(** [response = requests.get(url); response.raise_for_status()]: the
    exception raised, if any. *)
Definition checked_get (url : Url) : option RequestException.t :=
  match requests_get url with
  | Failed e => Some e
  | Responded response => raise_for_status response
  end.

(** [for service_id in repair_order_data.service_ids: ...]: the loop
    stops at the first exception. *)
Fixpoint check_services (service_ids : list Z)
    : option RequestException.t :=
  match service_ids with
  | [] => None
  | service_id :: rest =>
      match checked_get (services_url service_id) with
      | Some e => Some e
      | None => check_services rest
      end
  end.

(** The body of the [try] block. *)
Definition validate (repair_order_data : RepairOrderCreate.t)
    : option RequestException.t :=
  match check_services (RepairOrderCreate.service_ids repair_order_data) with
  | Some e => Some e
  | None =>
      checked_get
        (employees_url (RepairOrderCreate.employee_id repair_order_data))
  end.

(** The exception of the first address of [urls] whose request raises. *)
Definition first_raised (urls : list Url) : option RequestException.t :=
  foldr
    (λ url later,
       match checked_get url with
       | Some e => Some e
       | None => later
       end)
    None urls.

(** The [except requests.exceptions.RequestException as e] clause. *)
Definition upstream_error (e : RequestException.t) : HTTPException :=
  match RequestException.response e with
  | Some response =>
      {| status_code := Response.status_code response;
         detail := "Ошибка Сервиса Справочников: "
                   +:+ Response.text response |}
  | None =>
      {| status_code := 500;
         detail := "Ошибка связи с Сервисом Справочников: "
                   +:+ RequestException.str e |}
  end.

(** [session.add(RepairOrderServiceModel(service_id=service_id,
    repair_order_id=...))], as the commit inserts it. *)
Definition add_service_entry (repair_order_id : Z)
    (table : gmap Z RepairOrderServiceModel.t) (service_id : Z)
    : gmap Z RepairOrderServiceModel.t :=
  let id := autoincrement (dom table) in
  <[id := {| RepairOrderServiceModel.id := id;
             RepairOrderServiceModel.service_id := service_id;
             RepairOrderServiceModel.repair_order_id := repair_order_id |}]>
    table.

(** [POST /repair-orders]; [now] is [datetime.now()].  There are two
    commits.  The first inserts the order row, unless [employee_id] is an
    integer the store cannot take: then it raises and nothing is stored.
    The second inserts the association rows, all of them or, if one
    [service_id] is an integer the store cannot take, none: then it raises
    and the order row of the first commit stays. *)
Definition create_repair_order (repair_order_data : RepairOrderCreate.t)
    (now : Z) (session : Database) : Database * Reply RepairOrderModel.t :=
  match validate repair_order_data with
  | Some e => (session, Raise (upstream_error e))
  | None =>
      let new_repair_order_model :=
        {| RepairOrderModel.id :=
             autoincrement (dom (repair_orders session));
           RepairOrderModel.client_name :=
             RepairOrderCreate.client_name repair_order_data;
           RepairOrderModel.client_phone :=
             RepairOrderCreate.client_phone repair_order_data;
           RepairOrderModel.car_make :=
             RepairOrderCreate.car_make repair_order_data;
           RepairOrderModel.car_model :=
             RepairOrderCreate.car_model repair_order_data;
           RepairOrderModel.car_plate :=
             RepairOrderCreate.car_plate repair_order_data;
           RepairOrderModel.employee_id :=
             RepairOrderCreate.employee_id repair_order_data;
           RepairOrderModel.status := "Новый";
           RepairOrderModel.created_at := now;
           RepairOrderModel.description :=
             RepairOrderCreate.description repair_order_data |} in
      let id := RepairOrderModel.id new_repair_order_model in
      if decide (in_store_range
                   (RepairOrderCreate.employee_id repair_order_data))
      then
        let session :=
          {| repair_orders :=
               <[id := new_repair_order_model]> (repair_orders session);
             repair_order_services := repair_order_services session |} in
        if decide (Forall in_store_range
                     (RepairOrderCreate.service_ids repair_order_data))
        then
          let session :=
            {| repair_orders := repair_orders session;
               repair_order_services :=
                 foldl (add_service_entry id) (repair_order_services session)
                   (RepairOrderCreate.service_ids repair_order_data) |} in
          (session,
           Return {| RepairOrderModel.row := new_repair_order_model;
                     RepairOrderModel.services := load_services session id |})
        else (session, ServerError "OverflowError")
      else (session, ServerError "OverflowError")
  end.

(** [GET /repair-orders] *)
Definition get_all_repair_orders (session : Database)
    : Reply (list RepairOrderModel.t) :=
  Return
    ((λ row,
        {| RepairOrderModel.row := row;
           RepairOrderModel.services :=
             load_services session (RepairOrderModel.id row) |})
       <$> (snd <$> map_to_list (repair_orders session))).

(** [GET /repair-orders/{repair_order_id}] *)
Definition get_repair_order_by_id (repair_order_id : Z)
    (session : Database) : Reply RepairOrderModel.t :=
  match get_with_services session repair_order_id with
  | Found repair_order => Return repair_order
  | NotStored =>
      Raise {| status_code := 404; detail := "Заказ-наряд не найден" |}
  | OutOfRange => ServerError "OverflowError"
  end.

(** [repair_order.status = ...] *)
Definition set_status (status : string) (row : RepairOrderModel.columns)
    : RepairOrderModel.columns :=
  {| RepairOrderModel.id := RepairOrderModel.id row;
     RepairOrderModel.client_name := RepairOrderModel.client_name row;
     RepairOrderModel.client_phone := RepairOrderModel.client_phone row;
     RepairOrderModel.car_make := RepairOrderModel.car_make row;
     RepairOrderModel.car_model := RepairOrderModel.car_model row;
     RepairOrderModel.car_plate := RepairOrderModel.car_plate row;
     RepairOrderModel.employee_id := RepairOrderModel.employee_id row;
     RepairOrderModel.status := status;
     RepairOrderModel.created_at := RepairOrderModel.created_at row;
     RepairOrderModel.description := RepairOrderModel.description row |}.

(** [repair_order.description = ...] *)
Definition set_description (description : option string)
    (row : RepairOrderModel.columns) : RepairOrderModel.columns :=
  {| RepairOrderModel.id := RepairOrderModel.id row;
     RepairOrderModel.client_name := RepairOrderModel.client_name row;
     RepairOrderModel.client_phone := RepairOrderModel.client_phone row;
     RepairOrderModel.car_make := RepairOrderModel.car_make row;
     RepairOrderModel.car_model := RepairOrderModel.car_model row;
     RepairOrderModel.car_plate := RepairOrderModel.car_plate row;
     RepairOrderModel.employee_id := RepairOrderModel.employee_id row;
     RepairOrderModel.status := RepairOrderModel.status row;
     RepairOrderModel.created_at := RepairOrderModel.created_at row;
     RepairOrderModel.description := description |}.

(** [PUT /repair-orders/{repair_order_id}] *)
Definition update_repair_order (repair_order_id : Z)
    (repair_order_update : RepairOrderUpdate.t) (session : Database)
    : Database * Reply RepairOrderModel.t :=
  match get_with_services session repair_order_id with
  | NotStored =>
      (session,
       Raise {| status_code := 404; detail := "Заказ-наряд не найден" |})
  | OutOfRange => (session, ServerError "OverflowError")
  | Found repair_order =>
      let row := RepairOrderModel.row repair_order in
      let row :=
        match RepairOrderUpdate.status repair_order_update with
        | Some status => set_status status row
        | None => row
        end in
      let row :=
        match RepairOrderUpdate.description repair_order_update with
        | Some description => set_description (Some description) row
        | None => row
        end in
      ({| repair_orders := <[repair_order_id := row]> (repair_orders session);
          repair_order_services := repair_order_services session |},
       Return {| RepairOrderModel.row := row;
                 RepairOrderModel.services :=
                   RepairOrderModel.services repair_order |})
  end.

(** [DELETE /repair-orders/{repair_order_id}].  The [select] of the
    order's association rows is executed and its result dropped.  At the
    commit of [session.delete(repair_order)] the rows of the [services]
    relationship, which declares no [cascade], are detached from the order:
    their [repair_order_id] is set to [NULL].  The column is [Mapped[int]],
    not nullable, so with any such row the commit raises [IntegrityError]
    and nothing is written; without one the order row is deleted. *)
Definition delete_repair_order (repair_order_id : Z) (session : Database)
    : Database * Reply Ack :=
  match session_get (repair_orders session) repair_order_id with
  | NotStored =>
      (session,
       Raise {| status_code := 404; detail := "Заказ-наряд не найден" |})
  | OutOfRange => (session, ServerError "OverflowError")
  | Found repair_order =>
      let _ := load_services session repair_order_id in
      match load_services session repair_order_id with
      | [] =>
          ({| repair_orders := delete repair_order_id (repair_orders session);
              repair_order_services := repair_order_services session |},
           Return {| success := true;
                     message := "Заказ-наряд успешно удален" |})
      | _ :: _ => (session, ServerError "IntegrityError")
      end
  end.

(** ** Endpoints: handler, then response schema *)

Definition respond (reply : Reply RepairOrderModel.t)
    : Reply RepairOrder.dumped :=
  match reply with
  | Return obj => response_model obj
  | Raise e => Raise e
  | ServerError exception => ServerError exception
  end.

Definition post_repair_orders (repair_order_data : RepairOrderCreate.t)
    (now : Z) (session : Database) : Database * Reply RepairOrder.dumped :=
  let result := create_repair_order repair_order_data now session in
  (result.1, respond result.2).

Definition get_repair_order (repair_order_id : Z) (session : Database)
    : Reply RepairOrder.dumped :=
  respond (get_repair_order_by_id repair_order_id session).


End Handlers.

End RepairOrders.

(** * The two services together *)

Module Deployment.
Import RepairOrders.

Section ReferenceDataOverHttp.
Context {float : Type}.
(** The JSON text of a service and of an employee. *)
Variable service_json : ReferenceData.Service.t float -> string.
Variable employee_json : ReferenceData.Employee.t -> string.

Definition quote (s : string) : string :=
  String (Ascii.ascii_of_nat 34) s +:+ String (Ascii.ascii_of_nat 34) "".

(** The body of an error response: a JSON object with the [detail]. *)
Definition quote_detail (detail : string) : string :=
  "{" +:+ quote "detail" +:+ ":" +:+ quote detail +:+ "}".

(** The HTTP response the web framework produces for a handler's
    outcome: 200 and the JSON of the returned entity, the status of the
    [HTTPException] and an object with its [detail], or 500 and a plain
    text for an exception the handler did not catch. *)
Definition http_response {A} (json : A -> string) (reply : Reply A)
    : Response.t :=
  match reply with
  | Return a => {| Response.status_code := 200; Response.text := json a |}
  | Raise e =>
      {| Response.status_code := status_code e;
         Response.text := quote_detail (detail e) |}
  | ServerError _ =>
      {| Response.status_code := 500;
         Response.text := "Internal Server Error" |}
  end.

(** [requests.get] when [REFERENCE_DATA_URL] is a reachable reference
    data service whose database is [reference_data]. *)
Definition reference_data_service
    (reference_data : ReferenceData.Database float) (url : Url) : Fetched :=
  match url with
  | services_url service_id =>
      Responded
        (http_response service_json
           (ReferenceData.get_service_by_id service_id reference_data))
  | employees_url employee_id =>
      Responded
        (http_response employee_json
           (ReferenceData.get_employee_by_id employee_id reference_data))
  end.
End ReferenceDataOverHttp.

End Deployment.

(** * Primary keys *)

Module Keys.

(** Every row of [table] is stored under its own primary key. *)
Definition keyed {A} (id : A -> Z) (table : gmap Z A) : Prop :=
  map_Forall (λ key row, id row = key) table.

(** The tables of the reference data service are keyed by [id]. *)
Definition reference_data_keyed {float}
    (session : ReferenceData.Database float) : Prop :=
  keyed ReferenceData.ServiceModel.id (ReferenceData.services session)
  ∧ keyed ReferenceData.EmployeeModel.id (ReferenceData.employees session).

(** The tables of the repair order service are keyed by [id]. *)
Definition repair_orders_keyed (session : RepairOrders.Database) : Prop :=
  keyed RepairOrders.RepairOrderModel.id (RepairOrders.repair_orders session)
  ∧ keyed RepairOrders.RepairOrderServiceModel.id
      (RepairOrders.repair_order_services session).

(** Every key of [table] is an integer the store holds. *)
Definition within_range {A} (table : gmap Z A) : Prop :=
  map_Forall (λ key _, in_store_range key) table.

(** The keys of the reference data service are integers its store holds. *)
Definition reference_data_within_range {float}
    (session : ReferenceData.Database float) : Prop :=
  within_range (ReferenceData.services session)
  ∧ within_range (ReferenceData.employees session).

(** The keys of the repair order service are integers its store holds. *)
Definition repair_orders_within_range (session : RepairOrders.Database)
    : Prop :=
  within_range (RepairOrders.repair_orders session)
  ∧ within_range (RepairOrders.repair_order_services session).

End Keys.

(** * A small shop, for running the handlers on *)

Module Shop.
Import ReferenceData RepairOrders.

Definition oil_change : ServiceCreate.t Q :=
  {| ServiceCreate.name := "Oil Change";
     ServiceCreate.price := (2999 # 100)%Q;
     ServiceCreate.duration_minutes := 20 |}.

Definition jane_doe : EmployeeCreate.t :=
  {| EmployeeCreate.full_name := "Jane Doe";
     EmployeeCreate.position := "Mechanic" |}.

Definition no_reference_data : ReferenceData.Database Q :=
  {| services := ∅; employees := ∅ |}.

(** The reference data after [POST /services] and [POST /employees]:
    service 1 and employee 1. *)
Definition reference_data : ReferenceData.Database Q :=
  (create_employee sqlite_rowid jane_doe
     (create_service sqlite_rowid oil_change no_reference_data).1).1.

Definition upstream : Url -> Fetched :=
  Deployment.reference_data_service (λ _, "{}") (λ _, "{}") reference_data.

(** An upstream that cannot be reached. *)
Definition unreachable (_ : Url) : Fetched :=
  Failed {| RequestException.response := None;
            RequestException.str := "Connection refused" |}.

Definition order_for (service_ids : list Z) (employee_id : Z)
    : RepairOrderCreate.t :=
  {| RepairOrderCreate.client_name := "Ivan Petrov";
     RepairOrderCreate.client_phone := "+7 900 000-00-00";
     RepairOrderCreate.car_make := "Lada";
     RepairOrderCreate.car_model := "Niva";
     RepairOrderCreate.car_plate := "A001AA";
     RepairOrderCreate.service_ids := service_ids;
     RepairOrderCreate.employee_id := employee_id;
     RepairOrderCreate.description := Some "Knocking noise" |}.

Definition no_orders : RepairOrders.Database :=
  {| repair_orders := ∅; repair_order_services := ∅ |}.

(** The orders after one [POST /repair-orders] for service 1 and
    employee 1: order 1 with one association row. *)
Definition one_order : RepairOrders.Database :=
  (create_repair_order upstream sqlite_rowid (order_for [1] 1) 1000
     no_orders).1.

(** The orders after one [POST /repair-orders] that requests no service:
    order 1, without association rows. *)
Definition bare_order : RepairOrders.Database :=
  (create_repair_order upstream sqlite_rowid (order_for [] 1) 1000
     no_orders).1.

(** The first integer beyond the store's range. *)
Definition beyond : Z := 2 ^ 63.

(** [PUT /repair-orders/1] with a status and no description. *)
Definition start_work : RepairOrderUpdate.t :=
  {| RepairOrderUpdate.status := Some "В работе";
     RepairOrderUpdate.description := None |}.

End Shop.

(** * Properties *)

(** ** Storage layer *)

Lemma foldr_max_upper_bound (l : list Z) (x : Z) :
  x ∈ l → x <= foldr Z.max 0 l.
Proof.
  induction l as [|y l IH]; intros Hx.
  - by apply elem_of_nil in Hx.
  - apply elem_of_cons in Hx as [->|Hx]; simpl; [lia|].
    specialize (IH Hx). lia.
Qed.

(** The key SQLite assigns is not a key of the table. *)
Lemma sqlite_rowid_fresh (ids : gset Z) : sqlite_rowid ids ∉ ids.
Proof.
  intros Hin. apply elem_of_elements, foldr_max_upper_bound in Hin.
  unfold sqlite_rowid in Hin. lia.
Qed.

(** The three outcomes of [session.get]. *)
Lemma session_get_found {A} (table : gmap Z A) (id : Z) (row : A) :
  table !! id = Some row → session_get table id = Found row.
Proof. unfold session_get. by intros ->. Qed.

Lemma session_get_not_stored {A} (table : gmap Z A) (id : Z) :
  table !! id = None → in_store_range id → session_get table id = NotStored.
Proof. unfold session_get. intros -> Hid. by rewrite decide_True. Qed.

Lemma session_get_out_of_range {A} (table : gmap Z A) (id : Z) :
  table !! id = None → ¬ in_store_range id →
  session_get table id = OutOfRange.
Proof. unfold session_get. intros -> Hid. by rewrite decide_False. Qed.

Lemma session_get_found_inv {A} (table : gmap Z A) (id : Z) (row : A) :
  session_get table id = Found row → table !! id = Some row.
Proof.
  unfold session_get. destruct (table !! id); [by intros [= ->]|].
  by case_decide.
Qed.

(** On a table whose keys the store holds, [session.get] is the test on
    the id followed by the lookup. *)
Lemma session_get_within_range {A} (table : gmap Z A) (id : Z) :
  Keys.within_range table →
  session_get table id
  = if decide (in_store_range id)
    then match table !! id with
         | Some row => Found row
         | None => NotStored
         end
    else OutOfRange.
Proof.
  intros Htable. unfold session_get.
  destruct (table !! id) as [row|] eqn:Hrow; [|done].
  by rewrite decide_True by exact (Htable id row Hrow).
Qed.

(** ** Reference data service *)

Section ReferenceDataProperties.
Import ReferenceData.
Context {float : Type}.
Variable autoincrement : gset Z -> Z.
Hypothesis autoincrement_fresh : ∀ ids, autoincrement ids ∉ ids.


End ReferenceDataProperties.


(** ** Repair order service: validation of the referenced ids *)

Section ValidationProperties.
Import RepairOrders.
Variable requests_get : Url -> Fetched.

Lemma check_services_passes (service_ids : list Z) :
  check_services requests_get service_ids = None
  ↔ ∀ url, url ∈ services_url <$> service_ids →
           checked_get requests_get url = None.
Proof.
  induction service_ids as [|service_id rest IH]; simpl.
  - split; [|done]. intros _ url Hurl. by apply elem_of_nil in Hurl.
  - destruct (checked_get requests_get (services_url service_id)) eqn:Hget.
    + split; [done|]. intros Hall.
      rewrite Hall in Hget; [done|]. apply elem_of_cons; by left.
    + rewrite IH. split.
      * intros Hall url Hurl. apply elem_of_cons in Hurl as [->|Hurl]; auto.
      * intros Hall url Hurl. apply Hall, elem_of_cons. by right.
Qed.

(** Validation passes exactly when every lookup does. *)
Lemma validate_passes (repair_order_data : RepairOrderCreate.t) :
  validate requests_get repair_order_data = None
  ↔ ∀ url, url ∈ lookups repair_order_data →
           checked_get requests_get url = None.
Proof.
  unfold validate, lookups.
  destruct (check_services requests_get
              (RepairOrderCreate.service_ids repair_order_data)) eqn:Hloop.
  - split; [done|]. intros Hall.
    assert (check_services requests_get
              (RepairOrderCreate.service_ids repair_order_data) = None)
      as Hnone; [|congruence].
    apply check_services_passes. intros url Hurl.
    apply Hall, elem_of_app. by left.
  - rewrite check_services_passes in Hloop. split.
    + intros Hemployee url Hurl.
      apply elem_of_app in Hurl as [Hurl|Hurl]; [by apply Hloop|].
      apply list_elem_of_singleton in Hurl as ->. done.
    + intros Hall. apply Hall, elem_of_app. right.
      by apply list_elem_of_singleton.
Qed.

Lemma check_services_raises (service_ids : list Z) (e : RequestException.t) :
  check_services requests_get service_ids = Some e →
  ∃ url, url ∈ services_url <$> service_ids
         ∧ checked_get requests_get url = Some e.
Proof.
  induction service_ids as [|service_id rest IH]; simpl; [done|].
  destruct (checked_get requests_get (services_url service_id)) eqn:Hget.
  - intros [= ->]. exists (services_url service_id).
    split; [|done]. apply elem_of_cons; by left.
  - intros Hrest. destruct (IH Hrest) as (url & Hurl & Hraise).
    exists url. split; [|done]. apply elem_of_cons; by right.
Qed.

(** The exception validation ends in is the one some lookup raised. *)
Lemma validate_raises (repair_order_data : RepairOrderCreate.t)
    (e : RequestException.t) :
  validate requests_get repair_order_data = Some e →
  ∃ url, url ∈ lookups repair_order_data
         ∧ checked_get requests_get url = Some e.
Proof.
  unfold validate, lookups.
  destruct (check_services requests_get
              (RepairOrderCreate.service_ids repair_order_data)) eqn:Hloop.
  - intros [= ->]. destruct (check_services_raises _ _ Hloop)
      as (url & Hurl & Hraise).
    exists url. split; [|done]. apply elem_of_app; by left.
  - intros Hemployee. eexists. split; [|exact Hemployee].
    apply elem_of_app. right. by apply list_elem_of_singleton.
Qed.

(** A failing lookup makes validation fail. *)
Lemma failing_lookup_fails_validation
    (repair_order_data : RepairOrderCreate.t) :
  (∃ url, url ∈ lookups repair_order_data
          ∧ is_Some (checked_get requests_get url)) →
  is_Some (validate requests_get repair_order_data).
Proof.
  intros (url & Hurl & Hfail).
  destruct (validate requests_get repair_order_data) eqn:Hvalidate; [done|].
  rewrite validate_passes in Hvalidate.
  rewrite (Hvalidate url Hurl) in Hfail. by destruct Hfail.
Qed.

(** Validation ends in the exception of the first lookup that raises. *)
Lemma validate_is_first_raised (repair_order_data : RepairOrderCreate.t) :
  validate requests_get repair_order_data
  = first_raised requests_get (lookups repair_order_data).
Proof.
  unfold validate, lookups.
  induction (RepairOrderCreate.service_ids repair_order_data)
    as [|service_id rest IH]; simpl.
  - by destruct (checked_get requests_get _).
  - by destruct (checked_get requests_get (services_url service_id)).
Qed.

Lemma first_raised_after_passing (before after : list Url) (url : Url)
    (e : RequestException.t) :
  (∀ earlier, earlier ∈ before → checked_get requests_get earlier = None) →
  checked_get requests_get url = Some e →
  first_raised requests_get (before ++ url :: after) = Some e.
Proof.
  intros Hbefore Hurl. induction before as [|earlier before IH]; simpl.
  - by rewrite Hurl.
  - rewrite (Hbefore earlier) by (apply elem_of_cons; by left).
    apply IH. intros u Hu. apply Hbefore, elem_of_cons. by right.
Qed.

(** A lookup passes exactly when it is answered with a status that is
    not an error status. *)
Lemma checked_get_passes (url : Url) :
  checked_get requests_get url = None
  ↔ ∃ response,
      requests_get url = Responded response
      ∧ ¬ (400 <= Response.status_code response < 600).
Proof.
  unfold checked_get, raise_for_status. split.
  - destruct (requests_get url) as [response|e]; [|done].
    case_decide; [done|]. by exists response.
  - intros (response & -> & Hstatus). by case_decide.
Qed.

End ValidationProperties.

(** ** Repair order service: creation *)

Section CreationProperties.
Import RepairOrders.
Variable requests_get : Url -> Fetched.
Variable autoincrement : gset Z -> Z.

(** C1. If any validation lookup of an order-creation request (for a
    requested service id or for the employee id) ends in an error
    response or in no response at all, the request fails and the store is
    left as it was: no order row and no association row is written.  If
    every lookup succeeds, validation passes (no upstream error is raised)
    and creation goes on to the writes: the order row is stored as soon as
    the employee id is an integer the store holds, and the order is
    returned, its row stored, exactly when the service ids are too. *)
Theorem failed_validation_writes_nothing
    (repair_order_data : RepairOrderCreate.t) (now : Z)
    (session : Database) :
  ((∃ url, url ∈ lookups repair_order_data
           ∧ is_Some (checked_get requests_get url)) →
   ∃ e,
     create_repair_order requests_get autoincrement repair_order_data now
       session = (session, Raise e)
     ∧ post_repair_orders requests_get autoincrement repair_order_data now
         session = (session, Raise e))
  ∧ ((∀ url, url ∈ lookups repair_order_data →
             checked_get requests_get url = None) →
     (∀ e,
        (create_repair_order requests_get autoincrement repair_order_data
           now session).2 ≠ Raise e)
     ∧ (in_store_range (RepairOrderCreate.employee_id repair_order_data) →
        ∃ row,
          repair_orders
            (create_repair_order requests_get autoincrement
               repair_order_data now session).1
          !! autoincrement (dom (repair_orders session)) = Some row
          ∧ RepairOrderModel.employee_id row
            = RepairOrderCreate.employee_id repair_order_data
          ∧ RepairOrderModel.client_name row
            = RepairOrderCreate.client_name repair_order_data)
     ∧ ((∃ new,
           (create_repair_order requests_get autoincrement repair_order_data
              now session).2 = Return new
           ∧ repair_orders
               (create_repair_order requests_get autoincrement
                  repair_order_data now session).1
             !! RepairOrderModel.id (RepairOrderModel.row new)
             = Some (RepairOrderModel.row new))
        ↔ in_store_range (RepairOrderCreate.employee_id repair_order_data)
          ∧ Forall in_store_range
              (RepairOrderCreate.service_ids repair_order_data))).
Proof.
  split.
  - intros Hfail. apply failing_lookup_fails_validation in Hfail as [e He].
    exists (upstream_error e).
    unfold post_repair_orders, create_repair_order. by rewrite He.
  - intros Hpass. apply validate_passes in Hpass.
    unfold create_repair_order. rewrite Hpass. split; [|split].
    + intros e. by repeat case_decide.
    + intros Hemployee. rewrite decide_True by done.
      eexists. split; [|split].
      * case_decide; simpl; apply lookup_insert_eq.
      * reflexivity.
      * reflexivity.
    + split.
      * intros (new & Hnew & _). by repeat case_decide.
      * intros [Hemployee Hservices]. rewrite !decide_True by done. simpl.
        eexists. split; [reflexivity|]. simpl. by rewrite lookup_insert_eq.
Qed.

(** C6. When a validation lookup of an order-creation request fails (the
    lookups before it having been answered without error): if the upstream
    answered it with an error status (4xx or 5xx), or the client raised
    with a response in hand, the request fails with exactly that
    response's status code and a message that ends in its body; if no
    response was received, it fails with status 500 and a connectivity
    message. *)
Theorem upstream_failure_is_propagated
    (repair_order_data : RepairOrderCreate.t) (now : Z) (session : Database)
    (before after : list Url) (url : Url) :
  lookups repair_order_data = before ++ url :: after →
  (∀ earlier, earlier ∈ before →
     ∃ response,
       requests_get earlier = Responded response
       ∧ ¬ (400 <= Response.status_code response < 600)) →
  (∀ response,
     requests_get url = Responded response →
     400 <= Response.status_code response < 600 →
     (create_repair_order requests_get autoincrement repair_order_data now
        session).2
     = Raise {| status_code := Response.status_code response;
                detail := "Ошибка Сервиса Справочников: "
                          +:+ Response.text response |})
  ∧ (∀ e response,
       requests_get url = Failed e →
       RequestException.response e = Some response →
       (create_repair_order requests_get autoincrement repair_order_data now
          session).2
       = Raise {| status_code := Response.status_code response;
                  detail := "Ошибка Сервиса Справочников: "
                            +:+ Response.text response |})
  ∧ (∀ e,
       requests_get url = Failed e →
       RequestException.response e = None →
       (create_repair_order requests_get autoincrement repair_order_data now
          session).2
       = Raise {| status_code := 500;
                  detail := "Ошибка связи с Сервисом Справочников: "
                            +:+ RequestException.str e |}).
Proof.
  intros Hlookups Hbefore.
  assert (∀ e, checked_get requests_get url = Some e →
               (create_repair_order requests_get autoincrement
                  repair_order_data now session).2
               = Raise (upstream_error e)) as Hraised.
  { intros e He. unfold create_repair_order.
    rewrite validate_is_first_raised, Hlookups.
    rewrite (first_raised_after_passing _ _ _ _ e); [done| |done].
    intros earlier Hearlier. by apply checked_get_passes, Hbefore. }
  split; [|split].
  - intros response Hresponse Hstatus. rewrite (Hraised
      {| RequestException.response := Some response;
         RequestException.str := "HTTPError" |}); [done|].
    unfold checked_get, raise_for_status. rewrite Hresponse.
    by rewrite decide_True.
  - intros e response He Hresponse. rewrite (Hraised e).
    + unfold upstream_error. by rewrite Hresponse.
    + unfold checked_get. by rewrite He.
  - intros e He Hresponse. rewrite (Hraised e).
    + unfold upstream_error. by rewrite Hresponse.
    + unfold checked_get. by rewrite He.
Qed.

End CreationProperties.

Lemma failed_validation_writes_nothing_witness :
  RepairOrders.post_repair_orders Shop.upstream sqlite_rowid
    (Shop.order_for [1] 7) 1000 Shop.one_order
  = (Shop.one_order,
     Raise {| status_code := 404;
              detail := "Ошибка Сервиса Справочников: "
                        +:+ Deployment.quote_detail "Сотрудник не найден" |})
  ∧ is_Some
      (RepairOrders.repair_orders
         (RepairOrders.create_repair_order Shop.upstream sqlite_rowid
            (Shop.order_for [1] 1) 1000 Shop.one_order).1 !! 2).
Proof.
  destruct (failed_validation_writes_nothing Shop.upstream sqlite_rowid
              (Shop.order_for [1] 7) 1000 Shop.one_order) as [Hfail _].
  destruct (failed_validation_writes_nothing Shop.upstream sqlite_rowid
              (Shop.order_for [1] 1) 1000 Shop.one_order) as [_ Hpass].
  split.
  - destruct Hfail as (e & Hcreate & Hpost).
    + exists (RepairOrders.employees_url 7). split; [|by vm_compute; eexists].
      apply elem_of_app. right. by apply list_elem_of_singleton.
    + rewrite Hpost.
      assert ((RepairOrders.create_repair_order Shop.upstream sqlite_rowid
                 (Shop.order_for [1] 7) 1000 Shop.one_order).2 = Raise e)
        as Hraised by (by rewrite Hcreate).
      vm_compute in Hraised. injection Hraised as <-.
      apply f_equal. by vm_compute.
  - destruct Hpass as (_ & _ & Hreturned).
    + intros url Hurl. unfold RepairOrders.lookups in Hurl. simpl in Hurl.
      apply elem_of_cons in Hurl as [->|Hurl]; [by vm_compute|].
      apply list_elem_of_singleton in Hurl as ->. by vm_compute.
    + destruct (proj2 Hreturned) as (new & Hnew & Hrow).
      * split; [by vm_compute|]. apply Forall_singleton. by vm_compute.
      * vm_compute in Hnew. injection Hnew as <-. simpl in Hrow.
        rewrite Hrow. done.
Defined.

Lemma upstream_failure_is_propagated_witness :
  (RepairOrders.create_repair_order Shop.upstream sqlite_rowid
     (Shop.order_for [1] 7) 1000 Shop.no_orders).2
  = Raise {| status_code := 404;
             detail := "Ошибка Сервиса Справочников: "
                       +:+ Deployment.quote_detail "Сотрудник не найден" |}
  ∧ (RepairOrders.create_repair_order Shop.unreachable sqlite_rowid
       (Shop.order_for [1] 1) 1000 Shop.no_orders).2
    = Raise {| status_code := 500;
               detail := "Ошибка связи с Сервисом Справочников: "
                         +:+ "Connection refused" |}.
Proof.
  split.
  - destruct (upstream_failure_is_propagated Shop.upstream sqlite_rowid
                (Shop.order_for [1] 7) 1000 Shop.no_orders
                [RepairOrders.services_url 1] []
                (RepairOrders.employees_url 7)) as (Hanswered & _).
    + reflexivity.
    + intros earlier Hearlier.
      apply list_elem_of_singleton in Hearlier as ->.
      eexists. split; [by vm_compute|]. simpl. lia.
    + apply (Hanswered
               {| RepairOrders.Response.status_code := 404;
                  RepairOrders.Response.text :=
                    Deployment.quote_detail "Сотрудник не найден" |}).
      * by vm_compute.
      * simpl. lia.
  - destruct (upstream_failure_is_propagated Shop.unreachable sqlite_rowid
                (Shop.order_for [1] 1) 1000 Shop.no_orders
                [] [RepairOrders.employees_url 1]
                (RepairOrders.services_url 1)) as (_ & _ & Hsilent).
    + reflexivity.
    + intros earlier Hearlier. by apply elem_of_nil in Hearlier.
    + by apply (Hsilent
                  {| RepairOrders.RequestException.response := None;
                     RepairOrders.RequestException.str :=
                       "Connection refused" |}).
Defined.

(** ** Repair order service: what a created order is answered with *)

Section ResponseProperties.
Import RepairOrders.

(** The response built from an ORM object: its columns, and no service
    ids.  The object has no attribute named [service_ids] (the
    relationship is [services]), so the schema's default [[]] is what the
    serializer is given. *)
Lemma response_model_of_order (obj : RepairOrderModel.t) :
  response_model obj
  = Return
      {| RepairOrder.fields :=
           {| RepairOrder.id := RepairOrderModel.id (RepairOrderModel.row obj);
              RepairOrder.client_name :=
                RepairOrderModel.client_name (RepairOrderModel.row obj);
              RepairOrder.client_phone :=
                RepairOrderModel.client_phone (RepairOrderModel.row obj);
              RepairOrder.car_make :=
                RepairOrderModel.car_make (RepairOrderModel.row obj);
              RepairOrder.car_model :=
                RepairOrderModel.car_model (RepairOrderModel.row obj);
              RepairOrder.car_plate :=
                RepairOrderModel.car_plate (RepairOrderModel.row obj);
              RepairOrder.employee_id :=
                RepairOrderModel.employee_id (RepairOrderModel.row obj);
              RepairOrder.status :=
                RepairOrderModel.status (RepairOrderModel.row obj);
              RepairOrder.created_at :=
                RepairOrderModel.created_at (RepairOrderModel.row obj);
              RepairOrder.description :=
                RepairOrderModel.description (RepairOrderModel.row obj);
              RepairOrder.service_ids := [] |};
         RepairOrder.dumped_service_ids := [] |}.
Proof.
  destruct obj as [[id client_name client_phone car_make car_model car_plate
                      employee_id status created_at [description|]] services];
    vm_compute; reflexivity.
Qed.

End ResponseProperties.

(** ** Orders created against the reference data service *)

Section DeploymentProperties.
Import RepairOrders.
Context {float : Type}.
Variable service_json : ReferenceData.Service.t float -> string.
Variable employee_json : ReferenceData.Employee.t -> string.
Variable reference_data : ReferenceData.Database float.
Variable autoincrement : gset Z -> Z.

Local Abbreviation upstream :=
  (Deployment.reference_data_service service_json employee_json
     reference_data).

(** The lookup of a service id passes exactly when the service exists. *)
Lemma service_lookup_passes (service_id : Z) :
  checked_get upstream (services_url service_id) = None
  ↔ is_Some (ReferenceData.services reference_data !! service_id).
Proof.
  unfold checked_get; simpl.
  unfold ReferenceData.get_service_by_id, session_get.
  destruct (ReferenceData.services reference_data !! service_id); simpl.
  - split; [by eexists|done].
  - split; [by case_decide|]. intros []; done.
Qed.

(** The lookup of an employee id passes exactly when the employee
    exists. *)
Lemma employee_lookup_passes (employee_id : Z) :
  checked_get upstream (employees_url employee_id) = None
  ↔ is_Some (ReferenceData.employees reference_data !! employee_id).
Proof.
  unfold checked_get; simpl.
  unfold ReferenceData.get_employee_by_id, session_get.
  destruct (ReferenceData.employees reference_data !! employee_id); simpl.
  - split; [by eexists|done].
  - split; [by case_decide|]. intros []; done.
Qed.

Lemma known_ids_validate (repair_order_data : RepairOrderCreate.t) :
  (∀ service_id,
      service_id ∈ RepairOrderCreate.service_ids repair_order_data →
      is_Some (ReferenceData.services reference_data !! service_id)) →
  is_Some (ReferenceData.employees reference_data
             !! RepairOrderCreate.employee_id repair_order_data) →
  validate upstream repair_order_data = None.
Proof.
  intros Hservices Hemployee. apply validate_passes. intros url Hurl.
  apply elem_of_app in Hurl as [Hurl|Hurl].
  - apply list_elem_of_fmap in Hurl as (service_id & -> & Hin).
    by apply service_lookup_passes, Hservices.
  - apply list_elem_of_singleton in Hurl as ->.
    by apply employee_lookup_passes.
Qed.

(** C2, as the code has it. For every order-creation request whose
    service ids all exist and whose employee id exists in the reference
    data service (a store, so its keys are integers a store holds),
    creation succeeds, and the order the handler returns and the response
    built from it both have the status ["Новый"] (the Russian word for
    new; not the string ["New"]). *)
Theorem created_order_has_initial_status
    (repair_order_data : RepairOrderCreate.t) (now : Z)
    (session : Database) :
  Keys.reference_data_within_range reference_data →
  (∀ service_id,
      service_id ∈ RepairOrderCreate.service_ids repair_order_data →
      is_Some (ReferenceData.services reference_data !! service_id)) →
  is_Some (ReferenceData.employees reference_data
             !! RepairOrderCreate.employee_id repair_order_data) →
  ∃ new body,
    (create_repair_order upstream autoincrement repair_order_data now
       session).2 = Return new
    ∧ RepairOrderModel.status (RepairOrderModel.row new) = "Новый"
    ∧ (post_repair_orders upstream autoincrement repair_order_data now
         session).2 = Return body
    ∧ RepairOrder.status (RepairOrder.fields body) = "Новый".
Proof.
  intros [Hkeys_services Hkeys_employees] Hservices Hemployee.
  pose proof (known_ids_validate _ Hservices Hemployee) as Hvalid.
  unfold post_repair_orders, create_repair_order. rewrite Hvalid.
  rewrite decide_True; [rewrite decide_True|].
  - simpl. eexists. eexists. split; [reflexivity|]. split; [reflexivity|].
    rewrite response_model_of_order. split; reflexivity.
  - apply Forall_forall. intros service_id Hin.
    destruct (Hservices service_id Hin) as [row Hrow].
    exact (Hkeys_services service_id row Hrow).
  - destruct Hemployee as [row Hrow].
    exact (Hkeys_employees _ row Hrow).
Qed.

End DeploymentProperties.

Lemma created_order_has_initial_status_witness :
  ∃ body,
    (RepairOrders.post_repair_orders Shop.upstream sqlite_rowid
       (Shop.order_for [1] 1) 1000 Shop.no_orders).2 = Return body
    ∧ RepairOrders.RepairOrder.status (RepairOrders.RepairOrder.fields body)
      = "Новый".
Proof.
  destruct (created_order_has_initial_status (λ _, "{}") (λ _, "{}")
              Shop.reference_data sqlite_rowid (Shop.order_for [1] 1) 1000
              Shop.no_orders)
    as (new & body & _ & _ & Hbody & Hstatus).
  - split; unfold Keys.within_range; apply (bool_decide_unpack _);
      by vm_compute.
  - intros service_id Hin. simpl in Hin.
    apply list_elem_of_singleton in Hin as ->. by vm_compute; eexists.
  - by vm_compute; eexists.
  - exists body. split; [exact Hbody|exact Hstatus].
Defined.

(** C2, as stated, fails: service 1 and employee 1 exist, the order is
    created, and the status of the returned order is not ["New"]. *)
Lemma created_order_status_is_not_New :
  (∀ service_id,
      service_id ∈ RepairOrders.RepairOrderCreate.service_ids
                     (Shop.order_for [1] 1) →
      is_Some (ReferenceData.services Shop.reference_data !! service_id))
  ∧ is_Some (ReferenceData.employees Shop.reference_data
               !! RepairOrders.RepairOrderCreate.employee_id
                    (Shop.order_for [1] 1))
  ∧ ¬ ∃ body,
        (RepairOrders.post_repair_orders Shop.upstream sqlite_rowid
           (Shop.order_for [1] 1) 1000 Shop.no_orders).2 = Return body
        ∧ RepairOrders.RepairOrder.status (RepairOrders.RepairOrder.fields body)
          = "New".
Proof.
  split; [|split].
  - intros service_id Hin. simpl in Hin.
    apply list_elem_of_singleton in Hin as ->. by vm_compute; eexists.
  - by vm_compute; eexists.
  - intros (body & Hbody & Hstatus). vm_compute in Hbody.
    injection Hbody as <-. simpl in Hstatus. discriminate Hstatus.
Qed.

(** C3, on the code. The order for service 1 is created and its
    association row is stored, yet the response lists no service id:
    [service_ids] is empty, not [[1]]. *)
Lemma created_order_response_lists_no_service :
  RepairOrders.RepairOrderServiceModel.service_id
    <$> RepairOrders.load_services
          (RepairOrders.post_repair_orders Shop.upstream sqlite_rowid
             (Shop.order_for [1] 1) 1000 Shop.no_orders).1 1
  = [1]
  ∧ ∃ body,
      (RepairOrders.post_repair_orders Shop.upstream sqlite_rowid
         (Shop.order_for [1] 1) 1000 Shop.no_orders).2 = Return body
      ∧ RepairOrders.RepairOrder.id (RepairOrders.RepairOrder.fields body) = 1
      ∧ RepairOrders.RepairOrder.service_ids
          (RepairOrders.RepairOrder.fields body) = []
      ∧ RepairOrders.RepairOrder.dumped_service_ids body = [].
Proof.
  split; [by vm_compute|].
  eexists. split; [by vm_compute|]. by repeat split.
Qed.

(** ** Repair order service: association rows of a created order *)

Section AssociationProperties.
Import RepairOrders.
Variable requests_get : Url -> Fetched.
Variable autoincrement : gset Z -> Z.
Hypothesis autoincrement_fresh : ∀ ids, autoincrement ids ∉ ids.

(** The service ids of the rows of [table] that reference the order. *)
Local Abbreviation linked orders table repair_order_id :=
  (RepairOrderServiceModel.service_id
     <$> load_services
           {| repair_orders := orders; repair_order_services := table |}
           repair_order_id).

Lemma add_service_entry_linked orders table repair_order_id service_id :
  linked orders (add_service_entry autoincrement repair_order_id table
                   service_id) repair_order_id
  ≡ₚ service_id :: linked orders table repair_order_id.
Proof.
  unfold load_services, add_service_entry; simpl.
  rewrite map_to_list_insert
    by apply not_elem_of_dom, autoincrement_fresh.
  rewrite fmap_cons. simpl. by rewrite filter_cons_True.
Qed.

Lemma add_service_entries_linked orders table repair_order_id service_ids :
  linked orders
    (foldl (add_service_entry autoincrement repair_order_id) table
       service_ids) repair_order_id
  ≡ₚ linked orders table repair_order_id ++ service_ids.
Proof.
  revert table.
  induction service_ids as [|service_id rest IH]; intros table; simpl.
  - by rewrite app_nil_r.
  - rewrite IH, add_service_entry_linked.
    by rewrite <- Permutation_middle.
Qed.

(** Every order-creation request that validates, with ids the store
    holds, stores one association row per requested service id, pointing
    at the new order: if no row referenced the new order's id before, the
    order the handler returns carries rows for exactly the requested
    service ids, with their multiplicities. *)
Lemma created_order_is_linked_to_each_service
    (repair_order_data : RepairOrderCreate.t) (now : Z)
    (session : Database) :
  validate requests_get repair_order_data = None →
  in_store_range (RepairOrderCreate.employee_id repair_order_data) →
  Forall in_store_range (RepairOrderCreate.service_ids repair_order_data) →
  load_services session (autoincrement (dom (repair_orders session))) = [] →
  ∃ new,
    (create_repair_order requests_get autoincrement repair_order_data now
       session).2 = Return new
    ∧ RepairOrderServiceModel.service_id <$> RepairOrderModel.services new
      ≡ₚ RepairOrderCreate.service_ids repair_order_data
    ∧ Forall
        (λ entry, RepairOrderServiceModel.repair_order_id entry
                  = RepairOrderModel.id (RepairOrderModel.row new))
        (RepairOrderModel.services new).
Proof.
  intros Hvalid Hemployee Hservices Hnone.
  unfold create_repair_order. rewrite Hvalid, !decide_True by done. simpl.
  eexists. split; [reflexivity|]. simpl. split.
  - rewrite add_service_entries_linked. unfold load_services in *.
    simpl. by rewrite Hnone.
  - unfold load_services. simpl. apply Forall_forall. intros entry Hentry.
    by apply list_elem_of_filter in Hentry as [? _].
Qed.

(** Whatever the request, a response that is sent lists no service id. *)
Lemma response_lists_no_service
    (repair_order_data : RepairOrderCreate.t) (now : Z)
    (session : Database) (body : RepairOrder.dumped) :
  (post_repair_orders requests_get autoincrement repair_order_data now
     session).2 = Return body →
  RepairOrder.dumped_service_ids body = [].
Proof.
  unfold post_repair_orders, respond. simpl.
  destruct (create_repair_order requests_get autoincrement
              repair_order_data now session).2 as [obj|e|exception];
    [|done|done].
  rewrite response_model_of_order. by intros [= <-].
Qed.

End AssociationProperties.

(** ** Repair order service: update *)

Section UpdateProperties.
Import RepairOrders.

(** C4. For every existing repair order and every update request, a field
    of the request (status, description) that carries a value overwrites
    the stored one, a field that is absent leaves it untouched, and
    nothing else changes: the other columns of the order, the other
    orders and the association rows are as before. *)
Theorem update_overwrites_given_fields_only
    (repair_order_id : Z) (repair_order_update : RepairOrderUpdate.t)
    (session : Database) (stored : RepairOrderModel.columns) :
  repair_orders session !! repair_order_id = Some stored →
  ∃ updated,
    update_repair_order repair_order_id repair_order_update session
    = ({| repair_orders :=
            <[repair_order_id := updated]> (repair_orders session);
          repair_order_services := repair_order_services session |},
       Return {| RepairOrderModel.row := updated;
                 RepairOrderModel.services :=
                   load_services session repair_order_id |})
    ∧ RepairOrderModel.status updated
      = match RepairOrderUpdate.status repair_order_update with
        | Some status => status
        | None => RepairOrderModel.status stored
        end
    ∧ RepairOrderModel.description updated
      = match RepairOrderUpdate.description repair_order_update with
        | Some description => Some description
        | None => RepairOrderModel.description stored
        end
    ∧ RepairOrderModel.id updated = RepairOrderModel.id stored
    ∧ RepairOrderModel.client_name updated
      = RepairOrderModel.client_name stored
    ∧ RepairOrderModel.client_phone updated
      = RepairOrderModel.client_phone stored
    ∧ RepairOrderModel.car_make updated = RepairOrderModel.car_make stored
    ∧ RepairOrderModel.car_model updated = RepairOrderModel.car_model stored
    ∧ RepairOrderModel.car_plate updated = RepairOrderModel.car_plate stored
    ∧ RepairOrderModel.employee_id updated
      = RepairOrderModel.employee_id stored
    ∧ RepairOrderModel.created_at updated
      = RepairOrderModel.created_at stored.
Proof.
  intros Hstored. unfold update_repair_order, get_with_services.
  rewrite (session_get_found _ _ _ Hstored). simpl.
  eexists. split; [reflexivity|].
  destruct repair_order_update as [[status|] [description|]];
    simpl; repeat split; reflexivity.
Qed.





End UpdateProperties.

Lemma update_overwrites_given_fields_only_witness :
  ∃ stored updated,
    RepairOrders.repair_orders Shop.one_order !! 1 = Some stored
    ∧ RepairOrders.repair_orders
        (RepairOrders.update_repair_order 1 Shop.start_work Shop.one_order).1
      !! 1 = Some updated
    ∧ RepairOrders.RepairOrderModel.status updated = "В работе"
    ∧ RepairOrders.RepairOrderModel.description updated
      = RepairOrders.RepairOrderModel.description stored.
Proof.
  destruct (RepairOrders.repair_orders Shop.one_order !! 1)
    as [stored|] eqn:Hstored; [|by vm_compute in Hstored].
  destruct (update_overwrites_given_fields_only 1 Shop.start_work
              Shop.one_order stored Hstored)
    as (updated & Hupdate & Hstatus & Hdescription & _).
  exists stored, updated. split; [reflexivity|].
  rewrite Hupdate. simpl. rewrite lookup_insert_eq. by repeat split.
Defined.


(** ** Repair order service: delete *)

Section DeleteProperties.
Import RepairOrders.

(** What the delete of a stored order does: the association rows are
    never touched; the order row is removed exactly when no association
    row references the order, and otherwise the commit is refused and
    nothing is written. *)
Lemma delete_of_stored_order
    (repair_order_id : Z) (session : Database)
    (stored : RepairOrderModel.columns) :
  repair_orders session !! repair_order_id = Some stored →
  repair_order_services (delete_repair_order repair_order_id session).1
  = repair_order_services session
  ∧ (load_services session repair_order_id = [] →
     delete_repair_order repair_order_id session
     = ({| repair_orders := delete repair_order_id (repair_orders session);
           repair_order_services := repair_order_services session |},
        Return {| success := true;
                  message := "Заказ-наряд успешно удален" |}))
  ∧ (load_services session repair_order_id ≠ [] →
     delete_repair_order repair_order_id session
     = (session, ServerError "IntegrityError")).
Proof.
  intros Hstored. unfold delete_repair_order.
  rewrite (session_get_found _ _ _ Hstored).
  by destruct (load_services session repair_order_id).
Qed.

End DeleteProperties.

(** C9, on the code. Order 1 is stored and one association row
    references it; its delete is refused at the commit with
    [IntegrityError], answered as a server error, and removes nothing:
    the order row is still there, next to its association row. *)
Lemma order_with_service_rows_is_not_deleted :
  is_Some (RepairOrders.repair_orders Shop.one_order !! 1)
  ∧ RepairOrders.RepairOrderServiceModel.service_id
      <$> RepairOrders.load_services Shop.one_order 1 = [1]
  ∧ RepairOrders.delete_repair_order 1 Shop.one_order
    = (Shop.one_order, ServerError "IntegrityError").
Proof. split; [by vm_compute; eexists|]. split; by vm_compute. Qed.

(** ** Ids that are not there *)

Section NotFoundProperties.
Context {float : Type}.

(** C7, as the code has it. For each of the three entity kinds (service,
    employee, repair order) and every id that the store holds as an
    integer and that is not in the entity's table, get-by-id and delete
    both answer with an HTTP 404 and a message, not with success, and such
    a delete leaves the store as it was. *)
Theorem missing_id_is_not_found
    (reference_data : ReferenceData.Database float)
    (orders : RepairOrders.Database) (id : Z) :
  in_store_range id →
  (ReferenceData.services reference_data !! id = None →
     ReferenceData.get_service_by_id id reference_data
     = Raise {| status_code := 404; detail := "Услуга не найдена" |}
     ∧ ReferenceData.delete_service id reference_data
       = (reference_data,
          Raise {| status_code := 404; detail := "Услуга не найдена" |}))
  ∧ (ReferenceData.employees reference_data !! id = None →
     ReferenceData.get_employee_by_id id reference_data
     = Raise {| status_code := 404; detail := "Сотрудник не найден" |}
     ∧ ReferenceData.delete_employee id reference_data
       = (reference_data,
          Raise {| status_code := 404; detail := "Сотрудник не найден" |}))
  ∧ (RepairOrders.repair_orders orders !! id = None →
     RepairOrders.get_repair_order_by_id id orders
     = Raise {| status_code := 404; detail := "Заказ-наряд не найден" |}
     ∧ RepairOrders.get_repair_order id orders
       = Raise {| status_code := 404; detail := "Заказ-наряд не найден" |}
     ∧ RepairOrders.delete_repair_order id orders
       = (orders,
          Raise {| status_code := 404;
                   detail := "Заказ-наряд не найден" |})).
Proof.
  intros Hid. split; [|split]; intros Hmissing.
  - unfold ReferenceData.get_service_by_id, ReferenceData.delete_service.
    by rewrite (session_get_not_stored _ _ Hmissing Hid).
  - unfold ReferenceData.get_employee_by_id, ReferenceData.delete_employee.
    by rewrite (session_get_not_stored _ _ Hmissing Hid).
  - unfold RepairOrders.get_repair_order,
      RepairOrders.get_repair_order_by_id, RepairOrders.get_with_services,
      RepairOrders.delete_repair_order.
    by rewrite (session_get_not_stored _ _ Hmissing Hid).
Qed.

End NotFoundProperties.

Lemma missing_id_is_not_found_witness :
  ReferenceData.delete_service 7 Shop.reference_data
  = (Shop.reference_data,
     Raise {| status_code := 404; detail := "Услуга не найдена" |})
  ∧ ReferenceData.delete_employee 7 Shop.reference_data
    = (Shop.reference_data,
       Raise {| status_code := 404; detail := "Сотрудник не найден" |})
  ∧ RepairOrders.delete_repair_order 7 Shop.one_order
    = (Shop.one_order,
       Raise {| status_code := 404; detail := "Заказ-наряд не найден" |}).
Proof.
  destruct (missing_id_is_not_found Shop.reference_data Shop.one_order 7)
    as (Hservice & Hemployee & Horder); [by vm_compute|].
  split; [|split].
  - apply Hservice. by vm_compute.
  - apply Hemployee. by vm_compute.
  - apply Horder. by vm_compute.
Defined.

(** C7, as stated, fails: the id 2^63 is in none of the tables, and
    get-by-id and delete answer it with a server error (the store cannot
    take the integer), not with 404. *)
Lemma id_beyond_the_store_is_not_answered_404 :
  ReferenceData.services Shop.reference_data !! Shop.beyond = None
  ∧ RepairOrders.repair_orders Shop.one_order !! Shop.beyond = None
  ∧ ReferenceData.get_service_by_id Shop.beyond Shop.reference_data
    = ServerError "OverflowError"
  ∧ (ReferenceData.delete_service Shop.beyond Shop.reference_data).2
    = ServerError "OverflowError"
  ∧ RepairOrders.get_repair_order_by_id Shop.beyond Shop.one_order
    = ServerError "OverflowError"
  ∧ (RepairOrders.delete_repair_order Shop.beyond Shop.one_order).2
    = ServerError "OverflowError".
Proof. repeat split; by vm_compute. Qed.

(** ** Repair order service: the serializer of [service_ids] *)

Section SerializerProperties.
Import RepairOrders.

Lemma service_id_comprehension_of_entries
    (entries : list RepairOrderServiceModel.t) :
  service_id_comprehension (PyServiceEntry <$> entries)
  = Value ((λ entry, PyInt (RepairOrderServiceModel.service_id entry))
             <$> entries).
Proof.
  induction entries as [|entry entries IH]; [done|].
  rewrite !fmap_cons. cbn [service_id_comprehension get_service_id].
  by rewrite IH.
Qed.

(** C5, as the code has it. Given the collection of association rows, the
    serializer returns the plain list of the service ids the rows
    reference; given anything that is not a list, it returns the empty
    list; on neither does it raise. *)
Theorem serializer_flattens_rows_and_tolerates_non_lists :
  (∀ entries : list RepairOrderServiceModel.t,
      RepairOrder.serialize_service_ids (PyList (PyServiceEntry <$> entries))
      = Value ((λ entry, PyInt (RepairOrderServiceModel.service_id entry))
                 <$> entries))
  ∧ (∀ services_relationship : PyObject,
       isinstance_list services_relationship = false →
       RepairOrder.serialize_service_ids services_relationship = Value []).
Proof.
  split.
  - intros entries. simpl. apply service_id_comprehension_of_entries.
  - intros [] Hlist; simpl in *; done.
Qed.

End SerializerProperties.

Lemma serializer_flattens_rows_and_tolerates_non_lists_witness :
  RepairOrders.RepairOrder.serialize_service_ids RepairOrders.PyNone
  = RepairOrders.Value []
  ∧ RepairOrders.RepairOrder.serialize_service_ids
      (RepairOrders.PyList
         (RepairOrders.PyServiceEntry
            <$> RepairOrders.load_services Shop.one_order 1))
    = RepairOrders.Value [RepairOrders.PyInt 1].
Proof.
  destruct serializer_flattens_rows_and_tolerates_non_lists
    as [Hrows Hother].
  split.
  - apply Hother. reflexivity.
  - rewrite Hrows. by vm_compute.
Defined.

(** C5, as stated, fails: on a list of integers, which is what the field
    [service_ids: List[int]] holds, the serializer raises
    [AttributeError]. *)
Lemma serializer_raises_on_list_of_int :
  RepairOrders.RepairOrder.serialize_service_ids
    (RepairOrders.PyList [RepairOrders.PyInt 1])
  = RepairOrders.AttributeError.
Proof. reflexivity. Qed.


(** * Further properties of the handlers *)

(** ** Reference data service: the store behind the handlers *)

Section ReferenceDataStore.
Import ReferenceData Keys.
Context {float : Type}.
Variable autoincrement : gset Z -> Z.

(** X1. The handlers that write (create and delete, for services and for
    employees) keep every row stored under its own id. *)
Theorem reference_data_stays_keyed
    (new_service : ServiceCreate.t float) (new_employee : EmployeeCreate.t)
    (id : Z) (session : Database float) :
  reference_data_keyed session →
  reference_data_keyed (create_service autoincrement new_service session).1
  ∧ reference_data_keyed
      (create_employee autoincrement new_employee session).1
  ∧ reference_data_keyed (delete_service id session).1
  ∧ reference_data_keyed (delete_employee id session).1.
Proof.
  intros [Hservices Hemployees]. unfold reference_data_keyed, keyed in *.
  split; [|split; [|split]].
  - unfold create_service. case_decide; [|done]. simpl.
    split; [|done]. by apply map_Forall_insert_2.
  - simpl. split; [done|]. by apply map_Forall_insert_2.
  - unfold delete_service.
    destruct (session_get (services session) id); simpl; [|done|done].
    split; [|done]. by apply map_Forall_delete.
  - unfold delete_employee.
    destruct (session_get (employees session) id); simpl; [|done|done].
    split; [done|]. by apply map_Forall_delete.
Qed.

(** The listing of a table holds a row for each key, and nothing else. *)
Lemma listed_rows {A B} (f : A → B) (table : gmap Z A) (b : B) :
  b ∈ f <$> (snd <$> map_to_list table)
  ↔ ∃ key row, table !! key = Some row ∧ b = f row.
Proof.
  rewrite list_elem_of_fmap. split.
  - intros (row & -> & Hrow). apply list_elem_of_fmap in Hrow
      as ([key row'] & -> & Hin).
    apply elem_of_map_to_list in Hin. by exists key, row'.
  - intros (key & row & Hrow & ->). exists row. split; [done|].
    apply list_elem_of_fmap. exists (key, row). split; [done|].
    by apply elem_of_map_to_list.
Qed.

Lemma listed_rows_length {A B} (f : A → B) (table : gmap Z A) :
  length (f <$> (snd <$> map_to_list table)) = size table.
Proof. by rewrite !length_fmap, length_map_to_list. Qed.

(** X2. The listings agree with get-by-id: [GET /services] returns as many
    services as the table has rows, and a service is listed exactly when
    get-by-id on its id returns it; likewise for employees. *)
Theorem listing_agrees_with_get_by_id (session : Database float) :
  reference_data_keyed session →
  (∃ listed,
      get_all_services session = Return listed
      ∧ length listed = size (services session)
      ∧ ∀ service,
          service ∈ listed
          ↔ get_service_by_id (Service.id service) session = Return service)
  ∧ (∃ listed,
      get_all_employees session = Return listed
      ∧ length listed = size (employees session)
      ∧ ∀ employee,
          employee ∈ listed
          ↔ get_employee_by_id (Employee.id employee) session
            = Return employee).
Proof.
  intros [Hservices Hemployees]. split.
  - eexists. split; [reflexivity|]. split; [apply listed_rows_length|].
    intros service. rewrite listed_rows.
    unfold get_service_by_id, session_get. split.
    + intros (key & row & Hrow & ->). simpl.
      rewrite (Hservices key row Hrow). by rewrite Hrow.
    + destruct (services session !! Service.id service) as [row|] eqn:Hrow;
        [|by case_decide].
      intros [= <-]. by exists (ServiceModel.id row), row.
  - eexists. split; [reflexivity|]. split; [apply listed_rows_length|].
    intros employee. rewrite listed_rows.
    unfold get_employee_by_id, session_get. split.
    + intros (key & row & Hrow & ->). simpl.
      rewrite (Hemployees key row Hrow). by rewrite Hrow.
    + destruct (employees session !! Employee.id employee) as [row|] eqn:Hrow;
        [|by case_decide].
      intros [= <-]. by exists (EmployeeModel.id row), row.
Qed.

Hypothesis autoincrement_fresh : ∀ ids, autoincrement ids ∉ ids.

(** X3. Creating a service or an employee leaves what was stored as it
    was: every id that was there is answered by get-by-id as before and
    the other table is untouched; a creation that returns an entity grows
    the table by exactly one row, and one that is refused stores nothing.
    The creation of an employee always returns one. *)
Theorem create_keeps_stored_entities
    (new_service : ServiceCreate.t float) (new_employee : EmployeeCreate.t)
    (session : Database float) :
  ((∀ id, is_Some (services session !! id) →
          get_service_by_id id
            (create_service autoincrement new_service session).1
          = get_service_by_id id session)
   ∧ (∀ created,
        (create_service autoincrement new_service session).2
        = Return created →
        size (services (create_service autoincrement new_service session).1)
        = S (size (services session)))
   ∧ (∀ exception,
        (create_service autoincrement new_service session).2
        = ServerError exception →
        (create_service autoincrement new_service session).1 = session)
   ∧ employees (create_service autoincrement new_service session).1
     = employees session)
  ∧ ((∀ id, is_Some (employees session !! id) →
            get_employee_by_id id
              (create_employee autoincrement new_employee session).1
            = get_employee_by_id id session)
     ∧ size (employees (create_employee autoincrement new_employee session).1)
       = S (size (employees session))
     ∧ services (create_employee autoincrement new_employee session).1
       = services session).
Proof.
  pose proof (autoincrement_fresh (dom (services session))) as Hservice.
  pose proof (autoincrement_fresh (dom (employees session))) as Hemployee.
  apply not_elem_of_dom in Hservice, Hemployee.
  split.
  - unfold create_service. case_decide; simpl; [|done].
    split; [|split; [|done]].
    + intros id [row Hrow]. unfold get_service_by_id, session_get; simpl.
      rewrite lookup_insert_ne; [done|]. intros <-. congruence.
    + intros created _. by apply map_size_insert_None.
  - split; [|split; [|done]]; simpl.
    + intros id [row Hrow]. unfold get_employee_by_id, session_get; simpl.
      rewrite lookup_insert_ne; [done|]. intros <-. congruence.
    + by apply map_size_insert_None.
Qed.

(** X4. A service that a creation returns appears in the listing, once,
    next to everything that was listed before; so does the employee that
    every creation of an employee returns. *)
Theorem created_entity_is_listed
    (new_service : ServiceCreate.t float) (new_employee : EmployeeCreate.t)
    (session : Database float) :
  (∀ created,
      (create_service autoincrement new_service session).2 = Return created →
      ∃ before after,
        get_all_services session = Return before
        ∧ get_all_services
            (create_service autoincrement new_service session).1
          = Return after
        ∧ after ≡ₚ created :: before)
  ∧ (∃ created before after,
      (create_employee autoincrement new_employee session).2 = Return created
      ∧ get_all_employees session = Return before
      ∧ get_all_employees
          (create_employee autoincrement new_employee session).1
        = Return after
      ∧ after ≡ₚ created :: before).
Proof.
  pose proof (autoincrement_fresh (dom (services session))) as Hservice.
  pose proof (autoincrement_fresh (dom (employees session))) as Hemployee.
  apply not_elem_of_dom in Hservice, Hemployee.
  split.
  - intros created. unfold create_service. case_decide; [|done]. simpl.
    intros [= <-]. do 2 eexists. do 2 (split; [reflexivity|]). simpl.
    by rewrite map_to_list_insert.
  - do 3 eexists. do 3 (split; [reflexivity|]). simpl.
    by rewrite map_to_list_insert.
Qed.

End ReferenceDataStore.

Section ReferenceDataDelete.
Import ReferenceData.
Context {float : Type}.

(** X5. Deleting a stored service answers success and removes exactly that
    row: get-by-id on the id and a second delete both answer 404, every
    other id is answered as before, the table shrinks by one row and the
    employees are untouched.  The same holds for employees.  (The tables
    are those of a store: their keys are integers the store holds.) *)
Theorem deleted_entity_is_gone (id : Z) (session : Database float) :
  Keys.reference_data_within_range session →
  (is_Some (services session !! id) →
     (delete_service id session).2
     = Return {| success := true; message := "Услуга успешно удалена" |}
     ∧ get_service_by_id id (delete_service id session).1
       = Raise {| status_code := 404; detail := "Услуга не найдена" |}
     ∧ (delete_service id (delete_service id session).1).2
       = Raise {| status_code := 404; detail := "Услуга не найдена" |}
     ∧ (∀ other, other ≠ id →
          get_service_by_id other (delete_service id session).1
          = get_service_by_id other session)
     ∧ S (size (services (delete_service id session).1))
       = size (services session)
     ∧ employees (delete_service id session).1 = employees session)
  ∧ (is_Some (employees session !! id) →
     (delete_employee id session).2
     = Return {| success := true; message := "Сотрудник успешно удален" |}
     ∧ get_employee_by_id id (delete_employee id session).1
       = Raise {| status_code := 404; detail := "Сотрудник не найден" |}
     ∧ (delete_employee id (delete_employee id session).1).2
       = Raise {| status_code := 404; detail := "Сотрудник не найден" |}
     ∧ (∀ other, other ≠ id →
          get_employee_by_id other (delete_employee id session).1
          = get_employee_by_id other session)
     ∧ S (size (employees (delete_employee id session).1))
       = size (employees session)
     ∧ services (delete_employee id session).1 = services session).
Proof.
  intros [Hservices Hemployees]. split; intros [row Hrow].
  - pose proof (Hservices id row Hrow) as Hid.
    unfold delete_service, get_service_by_id.
    rewrite (session_get_found _ _ _ Hrow). simpl.
    rewrite (session_get_not_stored _ _ (lookup_delete_eq _ _) Hid).
    repeat split; try done.
    + intros other Hother. unfold session_get.
      by rewrite lookup_delete_ne.
    + rewrite map_size_delete, Hrow.
      pose proof (map_size_ne_0_lookup_2 (services session) id
                    (mk_is_Some _ _ Hrow)). lia.
  - pose proof (Hemployees id row Hrow) as Hid.
    unfold delete_employee, get_employee_by_id.
    rewrite (session_get_found _ _ _ Hrow). simpl.
    rewrite (session_get_not_stored _ _ (lookup_delete_eq _ _) Hid).
    repeat split; try done.
    + intros other Hother. unfold session_get.
      by rewrite lookup_delete_ne.
    + rewrite map_size_delete, Hrow.
      pose proof (map_size_ne_0_lookup_2 (employees session) id
                    (mk_is_Some _ _ Hrow)). lia.
Qed.

End ReferenceDataDelete.

Lemma reference_data_stays_keyed_witness :
  Keys.reference_data_keyed Shop.reference_data.
Proof.
  assert (Keys.reference_data_keyed Shop.no_reference_data) as Hempty.
  { split; apply map_Forall_empty. }
  destruct (reference_data_stays_keyed sqlite_rowid Shop.oil_change
              Shop.jane_doe 0 Shop.no_reference_data Hempty)
    as (Hservice & _).
  destruct (reference_data_stays_keyed sqlite_rowid Shop.oil_change
              Shop.jane_doe 0 _ Hservice)
    as (_ & Hemployee & _).
  exact Hemployee.
Defined.

(** The keys of the shop's reference data are integers the store holds. *)
Lemma shop_reference_data_within_range :
  Keys.reference_data_within_range Shop.reference_data.
Proof.
  split; unfold Keys.within_range; apply (bool_decide_unpack _);
    by vm_compute.
Qed.

(** The reference data of the shop is keyed. *)
Lemma shop_reference_data_keyed :
  Keys.reference_data_keyed Shop.reference_data.
Proof.
  split; unfold Keys.keyed; apply (bool_decide_unpack _); by vm_compute.
Qed.

Lemma listing_agrees_with_get_by_id_witness :
  ∃ listed,
    ReferenceData.get_all_employees Shop.reference_data = Return listed
    ∧ length listed = 1%nat
    ∧ ReferenceData.Employee.from_attributes
        {| ReferenceData.EmployeeModel.id := 1;
           ReferenceData.EmployeeModel.full_name := "Jane Doe";
           ReferenceData.EmployeeModel.position := "Mechanic" |}
      ∈ listed.
Proof.
  destruct (listing_agrees_with_get_by_id Shop.reference_data
              shop_reference_data_keyed)
    as (_ & listed & Hlisted & Hlength & Hagree).
  exists listed. split; [exact Hlisted|]. split.
  - rewrite Hlength. by vm_compute.
  - apply Hagree. by vm_compute.
Defined.

Lemma create_keeps_stored_entities_witness :
  ReferenceData.get_service_by_id 1
    (ReferenceData.create_service sqlite_rowid Shop.oil_change
       Shop.reference_data).1
  = ReferenceData.get_service_by_id 1 Shop.reference_data
  ∧ size (ReferenceData.services
            (ReferenceData.create_service sqlite_rowid Shop.oil_change
               Shop.reference_data).1) = 2%nat.
Proof.
  destruct (create_keeps_stored_entities sqlite_rowid sqlite_rowid_fresh
              Shop.oil_change Shop.jane_doe Shop.reference_data)
    as ((Hkept & Hsize & _) & _).
  split.
  - apply Hkept. by vm_compute; eexists.
  - destruct (ReferenceData.create_service sqlite_rowid Shop.oil_change
                Shop.reference_data).2 as [created| |] eqn:Hcreated;
      [|by vm_compute in Hcreated..].
    rewrite (Hsize created eq_refl). by vm_compute.
Defined.

Lemma created_entity_is_listed_witness :
  ∃ created before after,
    (ReferenceData.create_service sqlite_rowid Shop.oil_change
       Shop.reference_data).2 = Return created
    ∧ ReferenceData.get_all_services Shop.reference_data = Return before
    ∧ ReferenceData.get_all_services
        (ReferenceData.create_service sqlite_rowid Shop.oil_change
           Shop.reference_data).1 = Return after
    ∧ after ≡ₚ created :: before.
Proof.
  destruct (ReferenceData.create_service sqlite_rowid Shop.oil_change
              Shop.reference_data).2 as [created| |] eqn:Hcreated;
    [|by vm_compute in Hcreated..].
  destruct (proj1 (created_entity_is_listed sqlite_rowid sqlite_rowid_fresh
                     Shop.oil_change Shop.jane_doe Shop.reference_data)
              created Hcreated) as (before & after & Hlisted).
  by exists created, before, after.
Defined.

Lemma deleted_entity_is_gone_witness :
  ReferenceData.get_service_by_id 1
    (ReferenceData.delete_service 1 Shop.reference_data).1
  = Raise {| status_code := 404; detail := "Услуга не найдена" |}
  ∧ ReferenceData.get_employee_by_id 1
      (ReferenceData.delete_service 1 Shop.reference_data).1
    = ReferenceData.get_employee_by_id 1 Shop.reference_data.
Proof.
  destruct (deleted_entity_is_gone 1 Shop.reference_data
              shop_reference_data_within_range) as [Hservice _].
  destruct Hservice as (_ & Hgone & _ & _ & _ & Hemployees).
  - by vm_compute; eexists.
  - split; [exact Hgone|].
    unfold ReferenceData.get_employee_by_id. by rewrite Hemployees.
Defined.

(** ** Repair order service: validation, lookup by lookup *)

Section ValidationOrder.
Import RepairOrders.
Variable requests_get : Url -> Fetched.
Variable autoincrement : gset Z -> Z.

(** X6. The lookups are made in order (the service ids as listed, then the
    employee id) and the first one that fails decides the answer: its
    exception is the one turned into the [HTTPException], later ids are
    not looked at, and nothing is written. *)
Theorem first_failing_lookup_decides
    (repair_order_data : RepairOrderCreate.t) (now : Z) (session : Database)
    (before after : list Url) (url : Url) (e : RequestException.t) :
  lookups repair_order_data = before ++ url :: after →
  (∀ earlier, earlier ∈ before → checked_get requests_get earlier = None) →
  checked_get requests_get url = Some e →
  create_repair_order requests_get autoincrement repair_order_data now session
  = (session, Raise (upstream_error e)).
Proof.
  intros Hlookups Hbefore Hurl. unfold create_repair_order.
  rewrite (validate_is_first_raised requests_get), Hlookups.
  by rewrite (first_raised_after_passing requests_get _ _ _ e).
Qed.

(** X7. Validation reads nothing but the status codes: it passes exactly
    when every lookup is answered, with a status below 400 or above 599
    (whatever the body). *)
Theorem validation_reads_status_only
    (repair_order_data : RepairOrderCreate.t) :
  validate requests_get repair_order_data = None
  ↔ ∀ url, url ∈ lookups repair_order_data →
      ∃ response,
        requests_get url = Responded response
        ∧ ¬ (400 <= Response.status_code response < 600).
Proof.
  rewrite validate_passes. unfold checked_get, raise_for_status.
  split; intros Hall url Hurl; specialize (Hall url Hurl).
  - destruct (requests_get url) as [response|e']; [|done].
    exists response. split; [done|]. by case_decide.
  - destruct Hall as (response & -> & Hstatus). by case_decide.
Qed.

(** X8. A request without service ids, for an employee id that is an
    integer the store holds, is accepted on the employee lookup alone: the
    order is stored, and no association row is written. *)
Theorem order_without_services_is_accepted
    (repair_order_data : RepairOrderCreate.t) (now : Z) (session : Database) :
  RepairOrderCreate.service_ids repair_order_data = [] →
  in_store_range (RepairOrderCreate.employee_id repair_order_data) →
  checked_get requests_get
    (employees_url (RepairOrderCreate.employee_id repair_order_data)) = None →
  ∃ new,
    (create_repair_order requests_get autoincrement repair_order_data now
       session).2 = Return new
    ∧ repair_orders
        (create_repair_order requests_get autoincrement repair_order_data now
           session).1
      = <[RepairOrderModel.id (RepairOrderModel.row new)
          := RepairOrderModel.row new]> (repair_orders session)
    ∧ repair_order_services
        (create_repair_order requests_get autoincrement repair_order_data now
           session).1
      = repair_order_services session.
Proof.
  intros Hnone Hrange Hemployee. unfold create_repair_order, validate.
  rewrite Hnone. simpl. rewrite Hemployee.
  rewrite decide_True by done. simpl. eexists. by repeat split.
Qed.

End ValidationOrder.

Lemma first_failing_lookup_decides_witness :
  RepairOrders.create_repair_order Shop.upstream sqlite_rowid
    (Shop.order_for [1; 5; 6] 7) 1000 Shop.one_order
  = (Shop.one_order,
     Raise {| status_code := 404;
              detail := "Ошибка Сервиса Справочников: "
                        +:+ Deployment.quote_detail "Услуга не найдена" |}).
Proof.
  rewrite (first_failing_lookup_decides Shop.upstream sqlite_rowid
             (Shop.order_for [1; 5; 6] 7) 1000 Shop.one_order
             [RepairOrders.services_url 1]
             [RepairOrders.services_url 6; RepairOrders.employees_url 7]
             (RepairOrders.services_url 5)
             {| RepairOrders.RequestException.response :=
                  Some {| RepairOrders.Response.status_code := 404;
                          RepairOrders.Response.text :=
                            Deployment.quote_detail "Услуга не найдена" |};
                RepairOrders.RequestException.str := "HTTPError" |}).
  - reflexivity.
  - reflexivity.
  - intros earlier Hearlier. apply list_elem_of_singleton in Hearlier as ->.
    by vm_compute.
  - by vm_compute.
Defined.

Lemma validation_reads_status_only_witness :
  RepairOrders.validate Shop.upstream (Shop.order_for [1] 1) = None.
Proof.
  apply (proj2 (validation_reads_status_only Shop.upstream
                  (Shop.order_for [1] 1))).
  intros url Hurl. unfold RepairOrders.lookups in Hurl. simpl in Hurl.
  apply elem_of_cons in Hurl as [->|Hurl].
  - eexists. split; [by vm_compute|]. simpl. lia.
  - apply list_elem_of_singleton in Hurl as ->.
    eexists. split; [by vm_compute|]. simpl. lia.
Defined.

Lemma order_without_services_is_accepted_witness :
  ∃ new,
    (RepairOrders.create_repair_order Shop.upstream sqlite_rowid
       (Shop.order_for [] 1) 1000 Shop.one_order).2 = Return new
    ∧ RepairOrders.repair_order_services
        (RepairOrders.create_repair_order Shop.upstream sqlite_rowid
           (Shop.order_for [] 1) 1000 Shop.one_order).1
      = RepairOrders.repair_order_services Shop.one_order.
Proof.
  destruct (order_without_services_is_accepted Shop.upstream sqlite_rowid
              (Shop.order_for [] 1) 1000 Shop.one_order)
    as (new & Hnew & _ & Hrows).
  - reflexivity.
  - by vm_compute.
  - by vm_compute.
  - exists new. split; [exact Hnew|exact Hrows].
Defined.

(** ** Repair order service: the store behind the handlers *)

Section RepairOrderStore.
Import RepairOrders Keys.
Variable requests_get : Url -> Fetched.
Variable autoincrement : gset Z -> Z.

(** X9. [GET /repair-orders/{id}] on the id of an order just created
    returns the very object the creation returned: the same columns and
    the same association rows. *)
Theorem created_order_is_read_back
    (repair_order_data : RepairOrderCreate.t) (now : Z) (session : Database)
    (new : RepairOrderModel.t) :
  (create_repair_order requests_get autoincrement repair_order_data now
     session).2 = Return new →
  get_repair_order_by_id (RepairOrderModel.id (RepairOrderModel.row new))
    (create_repair_order requests_get autoincrement repair_order_data now
       session).1
  = Return new.
Proof.
  unfold create_repair_order.
  destruct (validate requests_get repair_order_data); [done|].
  repeat case_decide; try done. simpl.
  intros [= <-]. unfold get_repair_order_by_id, get_with_services. simpl.
  by rewrite (session_get_found _ _ _ (lookup_insert_eq _ _ _)).
Qed.

(** X10. [GET /repair-orders/{id}] after an update returns what the update
    returned: the updated order if there is one, the same 404 if not. *)
Theorem updated_order_is_read_back
    (repair_order_id : Z) (repair_order_update : RepairOrderUpdate.t)
    (session : Database) :
  get_repair_order_by_id repair_order_id
    (update_repair_order repair_order_id repair_order_update session).1
  = (update_repair_order repair_order_id repair_order_update session).2.
Proof.
  unfold update_repair_order, get_repair_order_by_id, get_with_services.
  destruct (session_get (repair_orders session) repair_order_id)
    as [stored| |] eqn:Hstored; simpl.
  - by rewrite (session_get_found _ _ _ (lookup_insert_eq _ _ _)).
  - by rewrite Hstored.
  - by rewrite Hstored.
Qed.

(** X11. An update is idempotent: sending the same update a second time
    changes nothing and returns the same order. *)
Theorem update_is_idempotent
    (repair_order_id : Z) (repair_order_update : RepairOrderUpdate.t)
    (session : Database) :
  update_repair_order repair_order_id repair_order_update
    (update_repair_order repair_order_id repair_order_update session).1
  = update_repair_order repair_order_id repair_order_update session.
Proof.
  unfold update_repair_order, get_with_services.
  destruct (session_get (repair_orders session) repair_order_id)
    as [stored| |] eqn:Hstored; simpl.
  - rewrite (session_get_found _ _ _ (lookup_insert_eq _ _ _)). simpl.
    rewrite insert_insert_eq.
    by destruct repair_order_update as [[status|] [description|]].
  - by rewrite Hstored.
  - by rewrite Hstored.
Qed.

(** X12. An update never adds or removes a row, whatever the request and
    whether or not the order exists: the ids of the stored orders and the
    table of association rows are as before. *)
Theorem update_never_adds_or_removes_rows
    (repair_order_id : Z) (repair_order_update : RepairOrderUpdate.t)
    (session : Database) :
  dom (repair_orders
         (update_repair_order repair_order_id repair_order_update session).1)
  = dom (repair_orders session)
  ∧ repair_order_services
      (update_repair_order repair_order_id repair_order_update session).1
    = repair_order_services session.
Proof.
  unfold update_repair_order, get_with_services.
  destruct (session_get (repair_orders session) repair_order_id)
    as [stored| |] eqn:Hstored; simpl; [|done|done].
  split; [|done]. apply dom_insert_lookup_L.
  apply session_get_found_inv in Hstored. by eexists.
Qed.

(** X13. After a delete that succeeded the order is gone: get-by-id, an
    update and a second delete all answer 404, and every other order is
    answered by get-by-id as before.  (The orders are those of a store:
    their keys are integers the store holds.) *)
Theorem deleted_order_is_gone
    (repair_order_id : Z) (session : Database) (ack : Ack)
    (repair_order_update : RepairOrderUpdate.t) :
  repair_orders_within_range session →
  (delete_repair_order repair_order_id session).2 = Return ack →
  get_repair_order_by_id repair_order_id
    (delete_repair_order repair_order_id session).1
  = Raise {| status_code := 404; detail := "Заказ-наряд не найден" |}
  ∧ (update_repair_order repair_order_id repair_order_update
       (delete_repair_order repair_order_id session).1).2
    = Raise {| status_code := 404; detail := "Заказ-наряд не найден" |}
  ∧ (delete_repair_order repair_order_id
       (delete_repair_order repair_order_id session).1).2
    = Raise {| status_code := 404; detail := "Заказ-наряд не найден" |}
  ∧ ∀ other, other ≠ repair_order_id →
      get_repair_order_by_id other
        (delete_repair_order repair_order_id session).1
      = get_repair_order_by_id other session.
Proof.
  intros [Horders _].
  unfold delete_repair_order, update_repair_order, get_repair_order_by_id,
    get_with_services.
  destruct (session_get (repair_orders session) repair_order_id)
    as [stored| |] eqn:Hstored; [|done|done].
  apply session_get_found_inv in Hstored.
  pose proof (Horders _ _ Hstored) as Hid.
  destruct (load_services session repair_order_id); [|done].
  simpl. intros _.
  rewrite (session_get_not_stored _ _ (lookup_delete_eq _ _) Hid).
  repeat split; try done.
  intros other Hother. unfold session_get, load_services. simpl.
  by rewrite lookup_delete_ne.
Qed.

(** X14. [GET /repair-orders] agrees with get-by-id: it returns as many
    orders as the table has rows, and an order is listed, with its
    association rows, exactly when get-by-id on its id returns it. *)
Theorem listed_orders_agree_with_get_by_id (session : Database) :
  repair_orders_keyed session →
  ∃ listed,
    get_all_repair_orders session = Return listed
    ∧ length listed = size (repair_orders session)
    ∧ ∀ repair_order,
        repair_order ∈ listed
        ↔ get_repair_order_by_id
            (RepairOrderModel.id (RepairOrderModel.row repair_order)) session
          = Return repair_order.
Proof.
  intros [Horders _]. eexists. split; [reflexivity|].
  split; [apply listed_rows_length|].
  intros repair_order. rewrite listed_rows.
  unfold get_repair_order_by_id, get_with_services, session_get. split.
  - intros (key & row & Hrow & ->). simpl.
    rewrite (Horders key row Hrow). by rewrite Hrow.
  - destruct repair_order as [row services]. simpl.
    destruct (repair_orders session !! RepairOrderModel.id row)
      as [row'|] eqn:Hrow; [|by case_decide].
    simpl. intros [= -> <-]. by exists (RepairOrderModel.id row), row.
Qed.

End RepairOrderStore.

Lemma created_order_is_read_back_witness :
  ∃ new,
    (RepairOrders.create_repair_order Shop.upstream sqlite_rowid
       (Shop.order_for [1] 1) 1000 Shop.one_order).2 = Return new
    ∧ RepairOrders.get_repair_order_by_id 2
        (RepairOrders.create_repair_order Shop.upstream sqlite_rowid
           (Shop.order_for [1] 1) 1000 Shop.one_order).1
      = Return new.
Proof.
  pose proof (created_order_is_read_back Shop.upstream sqlite_rowid
                (Shop.order_for [1] 1) 1000 Shop.one_order) as Hread.
  destruct (RepairOrders.create_repair_order Shop.upstream sqlite_rowid
              (Shop.order_for [1] 1) 1000 Shop.one_order).2
    as [new| |] eqn:Hnew; [|by vm_compute in Hnew..].
  specialize (Hread new eq_refl). exists new. split; [reflexivity|].
  vm_compute in Hnew. injection Hnew as <-. exact Hread.
Defined.

(** The keys of the shop's order without services are integers the store
    holds. *)
Lemma shop_bare_order_within_range :
  Keys.repair_orders_within_range Shop.bare_order.
Proof.
  split; unfold Keys.within_range; apply (bool_decide_unpack _);
    by vm_compute.
Qed.

Lemma deleted_order_is_gone_witness :
  (RepairOrders.delete_repair_order 1 Shop.bare_order).2
  = Return {| success := true; message := "Заказ-наряд успешно удален" |}
  ∧ RepairOrders.get_repair_order_by_id 1
      (RepairOrders.delete_repair_order 1 Shop.bare_order).1
    = Raise {| status_code := 404; detail := "Заказ-наряд не найден" |}.
Proof.
  split; [by vm_compute|].
  apply (deleted_order_is_gone 1 Shop.bare_order
           {| success := true; message := "Заказ-наряд успешно удален" |}
           Shop.start_work shop_bare_order_within_range).
  by vm_compute.
Defined.

(** The orders of the shop are keyed. *)
Lemma shop_orders_keyed : Keys.repair_orders_keyed Shop.one_order.
Proof.
  split; unfold Keys.keyed; apply (bool_decide_unpack _); by vm_compute.
Qed.

Lemma listed_orders_agree_with_get_by_id_witness :
  ∃ listed,
    RepairOrders.get_all_repair_orders Shop.one_order = Return listed
    ∧ length listed = 1%nat.
Proof.
  destruct (listed_orders_agree_with_get_by_id Shop.one_order
              shop_orders_keyed) as (listed & Hlisted & Hlength & _).
  exists listed. split; [exact Hlisted|]. rewrite Hlength. by vm_compute.
Defined.

(** ** Repair order service: what a creation writes *)

Section CreationWrites.
Import RepairOrders Keys.
Variable requests_get : Url -> Fetched.
Variable autoincrement : gset Z -> Z.

Lemma add_service_entries_keyed
    (repair_order_id : Z) (service_ids : list Z)
    (table : gmap Z RepairOrderServiceModel.t) :
  keyed RepairOrderServiceModel.id table →
  keyed RepairOrderServiceModel.id
    (foldl (add_service_entry autoincrement repair_order_id) table
       service_ids).
Proof.
  revert table. induction service_ids as [|service_id rest IH];
    intros table Htable; simpl; [done|].
  apply IH. unfold add_service_entry. by apply map_Forall_insert_2.
Qed.

(** X15. Creation, update and delete of repair orders keep every order
    and every association row stored under its own id. *)
Theorem repair_orders_stay_keyed
    (repair_order_data : RepairOrderCreate.t)
    (now : Z) (repair_order_id : Z) (repair_order_update : RepairOrderUpdate.t)
    (session : Database) :
  repair_orders_keyed session →
  repair_orders_keyed
    (create_repair_order requests_get autoincrement repair_order_data now
       session).1
  ∧ repair_orders_keyed
      (update_repair_order repair_order_id repair_order_update session).1
  ∧ repair_orders_keyed
      (delete_repair_order repair_order_id session).1.
Proof.
  intros [Horders Hentries]. unfold repair_orders_keyed.
  split; [|split].
  - unfold create_repair_order.
    destruct (validate requests_get repair_order_data); simpl; [done|].
    case_decide; [|done]. case_decide; simpl.
    + split; [by apply map_Forall_insert_2|].
      by apply add_service_entries_keyed.
    + split; [|done]. by apply map_Forall_insert_2.
  - unfold update_repair_order, get_with_services.
    destruct (session_get (repair_orders session) repair_order_id)
      as [stored| |] eqn:Hstored; simpl; [|done|done].
    split; [|done]. apply map_Forall_insert_2; [|done].
    apply session_get_found_inv in Hstored.
    pose proof (Horders _ _ Hstored) as Hid. simpl in Hid.
    by destruct repair_order_update as [[status|] [description|]].
  - unfold delete_repair_order.
    destruct (session_get (repair_orders session) repair_order_id);
      [|done|done].
    destruct (load_services session repair_order_id); [|done].
    simpl. split; [|done]. by apply map_Forall_delete.
Qed.

Hypothesis autoincrement_fresh : ∀ ids, autoincrement ids ∉ ids.

Lemma add_service_entries_keep_rows
    (repair_order_id : Z) (service_ids : list Z)
    (table : gmap Z RepairOrderServiceModel.t) :
  (∀ id entry,
      table !! id = Some entry →
      foldl (add_service_entry autoincrement repair_order_id) table
        service_ids !! id = Some entry)
  ∧ size (foldl (add_service_entry autoincrement repair_order_id) table
            service_ids)
    = (size table + length service_ids)%nat.
Proof.
  revert table. induction service_ids as [|service_id rest IH];
    intros table; simpl; [split; [done|lia]|].
  pose proof (autoincrement_fresh (dom table)) as Hfresh.
  apply not_elem_of_dom in Hfresh.
  destruct (IH (add_service_entry autoincrement repair_order_id table
                  service_id)) as [Hkept Hsize].
  split.
  - intros id entry Hentry. apply Hkept. unfold add_service_entry.
    rewrite lookup_insert_ne; [done|]. intros <-. congruence.
  - rewrite Hsize. unfold add_service_entry.
    rewrite map_size_insert_None by done. lia.
Qed.

(** X16. A creation that succeeds only adds rows: every order and every
    association row stored before is still stored, unchanged; the orders
    grow by one row and the association rows by one per requested service
    id. *)
Theorem creation_only_adds_rows
    (repair_order_data : RepairOrderCreate.t) (now : Z) (session : Database)
    (new : RepairOrderModel.t) :
  (create_repair_order requests_get autoincrement repair_order_data now
     session).2 = Return new →
  (∀ id row,
      repair_orders session !! id = Some row →
      repair_orders
        (create_repair_order requests_get autoincrement repair_order_data now
           session).1 !! id = Some row)
  ∧ (∀ id entry,
       repair_order_services session !! id = Some entry →
       repair_order_services
         (create_repair_order requests_get autoincrement repair_order_data
            now session).1 !! id = Some entry)
  ∧ size (repair_orders
            (create_repair_order requests_get autoincrement repair_order_data
               now session).1)
    = S (size (repair_orders session))
  ∧ size (repair_order_services
            (create_repair_order requests_get autoincrement repair_order_data
               now session).1)
    = (size (repair_order_services session)
       + length (RepairOrderCreate.service_ids repair_order_data))%nat.
Proof.
  unfold create_repair_order.
  destruct (validate requests_get repair_order_data); [done|].
  repeat case_decide; try done. simpl. intros _.
  pose proof (autoincrement_fresh (dom (repair_orders session))) as Hfresh.
  apply not_elem_of_dom in Hfresh.
  destruct (add_service_entries_keep_rows
              (autoincrement (dom (repair_orders session)))
              (RepairOrderCreate.service_ids repair_order_data)
              (repair_order_services session)) as [Hkept Hsize].
  repeat split; try done.
  - intros id row Hrow. rewrite lookup_insert_ne; [done|].
    intros <-. congruence.
  - by apply map_size_insert_None.
Qed.

(** X17. The order a creation returns carries the association rows that
    reference its id: one per requested service id, with multiplicities,
    next to whatever rows referenced that id already. *)
Theorem created_order_carries_requested_services
    (repair_order_data : RepairOrderCreate.t) (now : Z) (session : Database)
    (new : RepairOrderModel.t) :
  (create_repair_order requests_get autoincrement repair_order_data now
     session).2 = Return new →
  RepairOrderServiceModel.service_id <$> RepairOrderModel.services new
  ≡ₚ (RepairOrderServiceModel.service_id
        <$> load_services session
              (RepairOrderModel.id (RepairOrderModel.row new)))
     ++ RepairOrderCreate.service_ids repair_order_data
  ∧ Forall
      (λ entry, RepairOrderServiceModel.repair_order_id entry
                = RepairOrderModel.id (RepairOrderModel.row new))
      (RepairOrderModel.services new).
Proof.
  unfold create_repair_order.
  destruct (validate requests_get repair_order_data); [done|].
  repeat case_decide; try done. simpl.
  intros [= <-]. simpl. split.
  - by rewrite (add_service_entries_linked autoincrement autoincrement_fresh).
  - unfold load_services. simpl. apply Forall_forall. intros entry Hentry.
    by apply list_elem_of_filter in Hentry as [? _].
Qed.

End CreationWrites.

Lemma repair_orders_stay_keyed_witness :
  Keys.repair_orders_keyed
    (RepairOrders.update_repair_order 1 Shop.start_work Shop.one_order).1.
Proof.
  assert (Keys.repair_orders_keyed Shop.no_orders) as Hempty.
  { split; apply map_Forall_empty. }
  destruct (repair_orders_stay_keyed Shop.upstream sqlite_rowid
              (Shop.order_for [1] 1) 1000 1
              Shop.start_work Shop.no_orders Hempty) as (Hcreated & _).
  destruct (repair_orders_stay_keyed Shop.upstream sqlite_rowid
              (Shop.order_for [1] 1) 1000 1
              Shop.start_work Shop.one_order Hcreated) as (_ & Hupdated & _).
  exact Hupdated.
Defined.

Lemma creation_only_adds_rows_witness :
  size (RepairOrders.repair_orders
          (RepairOrders.create_repair_order Shop.upstream sqlite_rowid
             (Shop.order_for [1; 1] 1) 1000 Shop.one_order).1) = 2%nat
  ∧ size (RepairOrders.repair_order_services
            (RepairOrders.create_repair_order Shop.upstream sqlite_rowid
               (Shop.order_for [1; 1] 1) 1000 Shop.one_order).1) = 3%nat.
Proof.
  destruct (RepairOrders.create_repair_order Shop.upstream sqlite_rowid
              (Shop.order_for [1; 1] 1) 1000 Shop.one_order).2
    as [new| |] eqn:Hnew; [|by vm_compute in Hnew..].
  destruct (creation_only_adds_rows Shop.upstream sqlite_rowid
              sqlite_rowid_fresh (Shop.order_for [1; 1] 1) 1000
              Shop.one_order new Hnew) as (_ & _ & Horders & Hentries).
  split.
  - rewrite Horders. by vm_compute.
  - rewrite Hentries. by vm_compute.
Defined.

Lemma created_order_carries_requested_services_witness :
  ∃ new,
    (RepairOrders.create_repair_order Shop.upstream sqlite_rowid
       (Shop.order_for [1; 1] 1) 1000 Shop.one_order).2 = Return new
    ∧ RepairOrders.RepairOrderServiceModel.service_id
        <$> RepairOrders.RepairOrderModel.services new
      ≡ₚ [1; 1].
Proof.
  destruct (RepairOrders.create_repair_order Shop.upstream sqlite_rowid
              (Shop.order_for [1; 1] 1) 1000 Shop.one_order).2
    as [new| |] eqn:Hnew; [|by vm_compute in Hnew..].
  destruct (created_order_carries_requested_services Shop.upstream
              sqlite_rowid sqlite_rowid_fresh (Shop.order_for [1; 1] 1) 1000
              Shop.one_order new Hnew) as (Hcarried & _).
  exists new. split; [reflexivity|]. rewrite Hcarried.
  vm_compute in Hnew. injection Hnew as <-. by vm_compute.
Defined.

(** ** Repair order service: what a stored order is answered with *)

Section StoredOrderResponse.
Import RepairOrders.

(** X18. [GET /repair-orders/{id}] on a stored order is never answered
    with an error: the response carries the stored columns unchanged, and
    an empty [service_ids], whatever association rows the order has. *)
Theorem stored_order_is_answered_with_its_columns
    (repair_order_id : Z) (session : Database)
    (stored : RepairOrderModel.columns) :
  repair_orders session !! repair_order_id = Some stored →
  get_repair_order repair_order_id session
  = Return
      {| RepairOrder.fields :=
           {| RepairOrder.id := RepairOrderModel.id stored;
              RepairOrder.client_name := RepairOrderModel.client_name stored;
              RepairOrder.client_phone := RepairOrderModel.client_phone stored;
              RepairOrder.car_make := RepairOrderModel.car_make stored;
              RepairOrder.car_model := RepairOrderModel.car_model stored;
              RepairOrder.car_plate := RepairOrderModel.car_plate stored;
              RepairOrder.employee_id := RepairOrderModel.employee_id stored;
              RepairOrder.status := RepairOrderModel.status stored;
              RepairOrder.created_at := RepairOrderModel.created_at stored;
              RepairOrder.description := RepairOrderModel.description stored;
              RepairOrder.service_ids := [] |};
         RepairOrder.dumped_service_ids := [] |}.
Proof.
  intros Hstored.
  unfold get_repair_order, get_repair_order_by_id, get_with_services.
  rewrite (session_get_found _ _ _ Hstored). simpl.
  by rewrite response_model_of_order.
Qed.

(** X19. On a list the serializer raises exactly when some element is not
    an association row; when it does not raise it returns one id per
    element. *)
Theorem serializer_raises_exactly_on_foreign_elements
    (items : list PyObject) :
  (RepairOrder.serialize_service_ids (PyList items) = AttributeError
   ↔ ∃ item, item ∈ items ∧ is_service_entry item = false)
  ∧ ∀ ids,
      RepairOrder.serialize_service_ids (PyList items) = Value ids →
      length ids = length items.
Proof.
  simpl. induction items as [|item items [IHraise IHlength]]; simpl.
  - split; [|by intros ids [= <-]]. split; [done|].
    intros (item & Hitem & _). by apply elem_of_nil in Hitem.
  - destruct item; simpl;
      try (split; [|done]; split; [|done]; intros _; eexists;
           split; [by apply elem_of_cons; left|done]).
    destruct (service_id_comprehension items) as [rest|].
    + split.
      * split; [done|]. intros (item & Hitem & Hforeign).
        apply elem_of_cons in Hitem as [->|Hitem]; [done|].
        assert (@Value (list PyObject) rest = AttributeError) as Hrest
          by (apply IHraise; by exists item).
        done.
      * intros ids [= <-]. simpl. f_equal. by apply IHlength.
    + split; [|done]. split; [|done]. intros _.
      destruct (proj1 IHraise eq_refl) as (item & Hitem & Hforeign).
      exists item. split; [|done]. apply elem_of_cons. by right.
Qed.

End StoredOrderResponse.

Lemma stored_order_is_answered_with_its_columns_witness :
  ∃ body,
    RepairOrders.get_repair_order 1 Shop.one_order = Return body
    ∧ RepairOrders.RepairOrder.status (RepairOrders.RepairOrder.fields body)
      = "Новый"
    ∧ RepairOrders.RepairOrder.dumped_service_ids body = [].
Proof.
  destruct (RepairOrders.repair_orders Shop.one_order !! 1)
    as [stored|] eqn:Hstored; [|by vm_compute in Hstored].
  eexists. split.
  - exact (stored_order_is_answered_with_its_columns 1 Shop.one_order stored
             Hstored).
  - vm_compute in Hstored. injection Hstored as <-. by split.
Defined.

Lemma serializer_raises_exactly_on_foreign_elements_witness :
  ∃ item,
    item ∈ [RepairOrders.PyServiceEntry
              {| RepairOrders.RepairOrderServiceModel.id := 1;
                 RepairOrders.RepairOrderServiceModel.service_id := 1;
                 RepairOrders.RepairOrderServiceModel.repair_order_id := 1 |};
            RepairOrders.PyNone]
    ∧ RepairOrders.is_service_entry item = false.
Proof.
  apply (proj1 (proj1 (serializer_raises_exactly_on_foreign_elements _))).
  reflexivity.
Defined.

(** ** Orders created against the reference data service: unknown ids *)

Section UnknownReferences.
Import RepairOrders.
Context {float : Type}.
Variable service_json : ReferenceData.Service.t float -> string.
Variable employee_json : ReferenceData.Employee.t -> string.
Variable reference_data : ReferenceData.Database float.
Variable autoincrement : gset Z -> Z.

Local Abbreviation upstream :=
  (Deployment.reference_data_service service_json employee_json
     reference_data).

Lemma unknown_service_lookup (service_id : Z) (e : RequestException.t) :
  in_store_range service_id →
  checked_get upstream (services_url service_id) = Some e →
  upstream_error e
  = {| status_code := 404;
       detail := "Ошибка Сервиса Справочников: "
                 +:+ Deployment.quote_detail "Услуга не найдена" |}.
Proof.
  intros Hid. unfold checked_get; simpl.
  unfold ReferenceData.get_service_by_id, session_get.
  destruct (ReferenceData.services reference_data !! service_id); simpl;
    [done|].
  rewrite decide_True by done. by intros [= <-].
Qed.

(** X20. Against the reference data service, a creation request whose
    service ids are integers the store holds and that names one the
    service does not have is answered 404 with the reference service's
    own service-not-found body, whatever the other ids; one whose service
    ids all exist but whose employee id, an integer the store holds, does
    not is answered 404 with the employee-not-found body.  Nothing is
    written in either case. *)
Theorem unknown_reference_is_answered_404
    (repair_order_data : RepairOrderCreate.t) (now : Z)
    (session : Database) :
  (Forall in_store_range (RepairOrderCreate.service_ids repair_order_data) →
   (∃ service_id,
       service_id ∈ RepairOrderCreate.service_ids repair_order_data
       ∧ ReferenceData.services reference_data !! service_id = None) →
   create_repair_order upstream autoincrement repair_order_data now session
   = (session,
      Raise {| status_code := 404;
               detail := "Ошибка Сервиса Справочников: "
                         +:+ Deployment.quote_detail "Услуга не найдена" |}))
  ∧ ((∀ service_id,
        service_id ∈ RepairOrderCreate.service_ids repair_order_data →
        is_Some (ReferenceData.services reference_data !! service_id)) →
     in_store_range (RepairOrderCreate.employee_id repair_order_data) →
     ReferenceData.employees reference_data
       !! RepairOrderCreate.employee_id repair_order_data = None →
     create_repair_order upstream autoincrement repair_order_data now session
     = (session,
        Raise {| status_code := 404;
                 detail := "Ошибка Сервиса Справочников: "
                           +:+ Deployment.quote_detail
                                 "Сотрудник не найден" |})).
Proof.
  split.
  - intros Hrange (service_id & Hin & Hunknown).
    unfold create_repair_order, validate.
    destruct (check_services upstream
                (RepairOrderCreate.service_ids repair_order_data))
      as [e|] eqn:Hloop.
    + destruct (check_services_raises _ _ _ Hloop) as (url & Hurl & Hraise).
      apply list_elem_of_fmap in Hurl as (failing & -> & Hfailing).
      rewrite (unknown_service_lookup failing e); [done| |done].
      by apply (proj1 (Forall_forall _ _) Hrange).
    + rewrite check_services_passes in Hloop.
      assert (checked_get upstream (services_url service_id) = None) as Hpass.
      { apply Hloop, list_elem_of_fmap. by exists service_id. }
      apply service_lookup_passes in Hpass as [row Hrow]. congruence.
  - intros Hservices Hrange Hemployee. unfold create_repair_order, validate.
    assert (check_services upstream
              (RepairOrderCreate.service_ids repair_order_data) = None)
      as ->.
    { apply check_services_passes. intros url Hurl.
      apply list_elem_of_fmap in Hurl as (service_id & -> & Hin).
      by apply service_lookup_passes, Hservices. }
    unfold checked_get; simpl. unfold ReferenceData.get_employee_by_id.
    by rewrite (session_get_not_stored _ _ Hemployee Hrange).
Qed.

End UnknownReferences.

Lemma unknown_reference_is_answered_404_witness :
  RepairOrders.create_repair_order Shop.upstream sqlite_rowid
    (Shop.order_for [1; 5] 7) 1000 Shop.one_order
  = (Shop.one_order,
     Raise {| status_code := 404;
              detail := "Ошибка Сервиса Справочников: "
                        +:+ Deployment.quote_detail "Услуга не найдена" |})
  ∧ RepairOrders.create_repair_order Shop.upstream sqlite_rowid
      (Shop.order_for [1] 7) 1000 Shop.one_order
    = (Shop.one_order,
       Raise {| status_code := 404;
                detail := "Ошибка Сервиса Справочников: "
                          +:+ Deployment.quote_detail "Сотрудник не найден" |}).
Proof.
  split.
  - apply (proj1 (unknown_reference_is_answered_404 (λ _, "{}") (λ _, "{}")
                    Shop.reference_data sqlite_rowid
                    (Shop.order_for [1; 5] 7) 1000 Shop.one_order)).
    + repeat constructor; by vm_compute.
    + exists 5. split; [|by vm_compute].
      apply elem_of_cons. right. by apply list_elem_of_singleton.
  - apply (proj2 (unknown_reference_is_answered_404 (λ _, "{}") (λ _, "{}")
                    Shop.reference_data sqlite_rowid
                    (Shop.order_for [1] 7) 1000 Shop.one_order)).
    + intros service_id Hin. simpl in Hin.
      apply list_elem_of_singleton in Hin as ->. by vm_compute; eexists.
    + by vm_compute.
    + by vm_compute.
Defined.

(** ** The keys of the stores stay within range *)

Section StoresWithinRange.
Import Keys.
Context {float : Type}.
Variable requests_get : RepairOrders.Url -> RepairOrders.Fetched.
Variable autoincrement : gset Z -> Z.

(** The handlers of the reference data service keep the keys of both
    tables within the range of the store, as long as the keys the store
    assigns are. *)
Lemma reference_data_stays_within_range
    (new_service : ReferenceData.ServiceCreate.t float)
    (new_employee : ReferenceData.EmployeeCreate.t) (id : Z)
    (session : ReferenceData.Database float) :
  reference_data_within_range session →
  in_store_range (autoincrement (dom (ReferenceData.services session))) →
  in_store_range (autoincrement (dom (ReferenceData.employees session))) →
  reference_data_within_range
    (ReferenceData.create_service autoincrement new_service session).1
  ∧ reference_data_within_range
      (ReferenceData.create_employee autoincrement new_employee session).1
  ∧ reference_data_within_range (ReferenceData.delete_service id session).1
  ∧ reference_data_within_range (ReferenceData.delete_employee id session).1.
Proof.
  intros [Hservices Hemployees] Hservice Hemployee.
  unfold reference_data_within_range, within_range in *.
  split; [|split; [|split]].
  - unfold ReferenceData.create_service. case_decide; [|done]. simpl.
    split; [|done]. by apply map_Forall_insert_2.
  - simpl. split; [done|]. by apply map_Forall_insert_2.
  - unfold ReferenceData.delete_service.
    destruct (session_get (ReferenceData.services session) id); simpl;
      [|done|done].
    split; [|done]. by apply map_Forall_delete.
  - unfold ReferenceData.delete_employee.
    destruct (session_get (ReferenceData.employees session) id); simpl;
      [|done|done].
    split; [done|]. by apply map_Forall_delete.
Qed.

Lemma add_service_entries_within_range
    (repair_order_id : Z) (service_ids : list Z)
    (table : gmap Z RepairOrders.RepairOrderServiceModel.t) :
  (∀ ids, in_store_range (autoincrement ids)) →
  within_range table →
  within_range
    (foldl (RepairOrders.add_service_entry autoincrement repair_order_id)
       table service_ids).
Proof.
  intros Hassigned. revert table.
  induction service_ids as [|service_id rest IH]; intros table Htable;
    simpl; [done|].
  apply IH. unfold RepairOrders.add_service_entry.
  by apply map_Forall_insert_2.
Qed.

(** So do the handlers of the repair order service. *)
Lemma repair_orders_stay_within_range
    (repair_order_data : RepairOrders.RepairOrderCreate.t) (now : Z)
    (repair_order_id : Z)
    (repair_order_update : RepairOrders.RepairOrderUpdate.t)
    (session : RepairOrders.Database) :
  (∀ ids, in_store_range (autoincrement ids)) →
  repair_orders_within_range session →
  repair_orders_within_range
    (RepairOrders.create_repair_order requests_get autoincrement
       repair_order_data now session).1
  ∧ repair_orders_within_range
      (RepairOrders.update_repair_order repair_order_id repair_order_update
         session).1
  ∧ repair_orders_within_range
      (RepairOrders.delete_repair_order repair_order_id session).1.
Proof.
  intros Hassigned [Horders Hentries].
  unfold repair_orders_within_range. split; [|split].
  - unfold RepairOrders.create_repair_order.
    destruct (RepairOrders.validate requests_get repair_order_data); simpl;
      [done|].
    case_decide; [|done]. case_decide; simpl.
    + split; [by apply map_Forall_insert_2|].
      by apply add_service_entries_within_range.
    + split; [|done]. by apply map_Forall_insert_2.
  - unfold RepairOrders.update_repair_order, RepairOrders.get_with_services.
    destruct (session_get (RepairOrders.repair_orders session)
                repair_order_id) as [stored| |] eqn:Hstored; simpl;
      [|done|done].
    split; [|done]. apply map_Forall_insert_2; [|done].
    apply session_get_found_inv in Hstored. exact (Horders _ _ Hstored).
  - unfold RepairOrders.delete_repair_order.
    destruct (session_get (RepairOrders.repair_orders session)
                repair_order_id); [|done|done].
    destruct (RepairOrders.load_services session repair_order_id); [|done].
    simpl. split; [|done]. by apply map_Forall_delete.
Qed.

(** A creation whose service ids the upstream accepted but the store
    cannot all take is interrupted between its two commits: the order row
    is stored, no association row is, and the request ends in a server
    error. *)
Lemma interrupted_creation_keeps_order_row
    (repair_order_data : RepairOrders.RepairOrderCreate.t) (now : Z)
    (session : RepairOrders.Database) :
  RepairOrders.validate requests_get repair_order_data = None →
  in_store_range (RepairOrders.RepairOrderCreate.employee_id repair_order_data) →
  ¬ Forall in_store_range
      (RepairOrders.RepairOrderCreate.service_ids repair_order_data) →
  (RepairOrders.create_repair_order requests_get autoincrement
     repair_order_data now session).2 = ServerError "OverflowError"
  ∧ is_Some
      (RepairOrders.repair_orders
         (RepairOrders.create_repair_order requests_get autoincrement
            repair_order_data now session).1
       !! autoincrement (dom (RepairOrders.repair_orders session)))
  ∧ RepairOrders.repair_order_services
      (RepairOrders.create_repair_order requests_get autoincrement
         repair_order_data now session).1
    = RepairOrders.repair_order_services session.
Proof.
  intros Hvalid Hemployee Hservices. unfold RepairOrders.create_repair_order.
  rewrite Hvalid, decide_True, decide_False by done. simpl.
  split; [done|]. split; [|done]. rewrite lookup_insert_eq. by eexists.
Qed.

End StoresWithinRange.
